(** * samlify: the HTTP-Redirect binding (src/binding-redirect.ts)

    A shallow embedding of [pvPair], [buildRedirectURL] and the three
    builders [loginRequestRedirectURL], [logoutRequestRedirectURL] and
    [logoutResponseRedirectURL], with the properties of the produced URL,
    of the signing input and of the template placeholders.

    Strings are byte strings: a JavaScript string is represented by its
    UTF-8 encoding, which is what [encodeURIComponent] escapes byte by
    byte. *)

From Stdlib Require Import String Ascii List Bool Arith Lia.
Import ListNotations.
Open Scope string_scope.
Open Scope nat_scope.

(* ------------------------------------------------------------------ *)
(** ** Strings *)

(** [forallb] on the characters of a string. *)
Fixpoint allChars (p : ascii -> bool) (s : string) : bool :=
  match s with
  | EmptyString => true
  | String c r => p c && allChars p r
  end.

(* ------------------------------------------------------------------ *)
(** ** encodeURIComponent / decodeURIComponent (ECMAScript built-ins)

    [encodeURIComponent] leaves the unreserved characters
    [A-Z a-z 0-9 - _ . ! ~ * ' ( )] alone and replaces every other byte of
    the UTF-8 encoding by [%XX] with upper-case hexadecimal digits. *)

Definition inRange (lo hi : nat) (c : ascii) : bool :=
  let n := nat_of_ascii c in (lo <=? n) && (n <=? hi).

Definition uriUnreserved (c : ascii) : bool :=
  inRange 65 90 c || inRange 97 122 c || inRange 48 57 c
  || existsb (Ascii.eqb c) ["-"; "_"; "."; "!"; "~"; "*"; "'"; "("; ")"]%char.

Definition hexDigit (n : nat) : ascii :=
  nth n (list_ascii_of_string "0123456789ABCDEF") "0"%char.

Definition percentEscape (c : ascii) : string :=
  let n := nat_of_ascii c in
  String "%" (String (hexDigit (n / 16)) (String (hexDigit (n mod 16)) "")).

Definition encodeURIChar (c : ascii) : string :=
  if uriUnreserved c then String c "" else percentEscape c.

Fixpoint encodeURIComponent (s : string) : string :=
  match s with
  | EmptyString => ""
  | String c r => encodeURIChar c ++ encodeURIComponent r
  end.

Definition hexValue (c : ascii) : option nat :=
  let n := nat_of_ascii c in
  if inRange 48 57 c then Some (n - 48)
  else if inRange 65 70 c then Some (n - 55)
  else if inRange 97 102 c then Some (n - 87)
  else None.

(** The inverse: [None] stands for the URIError of a malformed escape. *)
Fixpoint decodeURIComponent (s : string) : option string :=
  match s with
  | EmptyString => Some ""
  | String c r =>
      if Ascii.eqb c "%" then
        match r with
        | String h (String l r') =>
            match hexValue h, hexValue l, decodeURIComponent r' with
            | Some a, Some b, Some t => Some (String (ascii_of_nat (16 * a + b)) t)
            | _, _, _ => None
            end
        | _ => None
        end
      else option_map (String c) (decodeURIComponent r)
  end.

(* ------------------------------------------------------------------ *)
(** ** Base64 (utility.base64Encode / utility.base64Decode) *)

Definition base64Alphabet : list ascii :=
  list_ascii_of_string
    "ABCDEFGHIJKLMNOPQRSTUVWXYZabcdefghijklmnopqrstuvwxyz0123456789+/".

(** A sextet, most significant bit first. *)
Definition sextet : Type := (bool * bool * bool * bool * bool * bool)%type.

Definition sextetValue (s : sextet) : nat :=
  let '(b5, b4, b3, b2, b1, b0) := s in
  32 * Nat.b2n b5 + 16 * Nat.b2n b4 + 8 * Nat.b2n b3
  + 4 * Nat.b2n b2 + 2 * Nat.b2n b1 + Nat.b2n b0.

Definition sextetOfNat (n : nat) : sextet :=
  (Nat.testbit n 5, Nat.testbit n 4, Nat.testbit n 3,
   Nat.testbit n 2, Nat.testbit n 1, Nat.testbit n 0).

Definition base64Char (s : sextet) : ascii := nth (sextetValue s) base64Alphabet "A"%char.

Definition base64Value (c : ascii) : option sextet :=
  let n := nat_of_ascii c in
  if inRange 65 90 c then Some (sextetOfNat (n - 65))
  else if inRange 97 122 c then Some (sextetOfNat (n - 71))
  else if inRange 48 57 c then Some (sextetOfNat (n + 4))
  else if Ascii.eqb c "+" then Some (sextetOfNat 62)
  else if Ascii.eqb c "/" then Some (sextetOfNat 63)
  else None.

(** The four sextets of a group of three bytes ([Ascii] lists the bits of a
    byte least significant first). *)
Definition sextets3 (a b c : ascii) : sextet * sextet * sextet * sextet :=
  let 'Ascii a0 a1 a2 a3 a4 a5 a6 a7 := a in
  let 'Ascii b0 b1 b2 b3 b4 b5 b6 b7 := b in
  let 'Ascii c0 c1 c2 c3 c4 c5 c6 c7 := c in
  ((a7, a6, a5, a4, a3, a2), (a1, a0, b7, b6, b5, b4),
   (b3, b2, b1, b0, c7, c6), (c5, c4, c3, c2, c1, c0)).

Definition bytes3 (s1 s2 s3 s4 : sextet) : ascii * ascii * ascii :=
  let '(a7, a6, a5, a4, a3, a2) := s1 in
  let '(a1, a0, b7, b6, b5, b4) := s2 in
  let '(b3, b2, b1, b0, c7, c6) := s3 in
  let '(c5, c4, c3, c2, c1, c0) := s4 in
  (Ascii a0 a1 a2 a3 a4 a5 a6 a7, Ascii b0 b1 b2 b3 b4 b5 b6 b7,
   Ascii c0 c1 c2 c3 c4 c5 c6 c7).

(** Modelled from the spec: utility.ts is not under src/. [base64Encode] is
    the standard base64 text of a byte sequence (section 4.1, step 2), with
    [=] padding, as [Buffer.toString('base64')] produces it. *)
Fixpoint base64Encode (bs : list ascii) : string :=
  match bs with
  | [] => ""
  | [a] =>
      let '(s1, s2, _, _) := sextets3 a zero zero in
      String (base64Char s1) (String (base64Char s2) "==")
  | [a; b] =>
      let '(s1, s2, s3, _) := sextets3 a b zero in
      String (base64Char s1) (String (base64Char s2) (String (base64Char s3) "="))
  | a :: b :: c :: r =>
      let '(s1, s2, s3, s4) := sextets3 a b c in
      String (base64Char s1) (String (base64Char s2)
        (String (base64Char s3) (String (base64Char s4) (base64Encode r))))
  end.

(** Modelled from the spec: the inverse stage of the decoding pipeline
    (section 8), utility.base64Decode, which is not under src/. Padding is
    accepted in the last group only. *)
Fixpoint base64Decode (s : string) : option (list ascii) :=
  match s with
  | EmptyString => Some []
  | String c1 (String c2 (String c3 (String c4 r))) =>
      match base64Value c1, base64Value c2 with
      | Some s1, Some s2 =>
          if Ascii.eqb c4 "=" then
            match r with
            | EmptyString =>
                if Ascii.eqb c3 "=" then
                  let '(a, _, _) := bytes3 s1 s2 (sextetOfNat 0) (sextetOfNat 0) in
                  Some [a]
                else
                  match base64Value c3 with
                  | Some s3 =>
                      let '(a, b, _) := bytes3 s1 s2 s3 (sextetOfNat 0) in
                      Some [a; b]
                  | None => None
                  end
            | _ => None
            end
          else
            match base64Value c3, base64Value c4, base64Decode r with
            | Some s3, Some s4, Some t =>
                let '(a, b, c) := bytes3 s1 s2 s3 s4 in Some (a :: b :: c :: t)
            | _, _, _ => None
            end
      | _, _ => None
      end
  | _ => None
  end.

(* ------------------------------------------------------------------ *)
(** ** Values, errors and effects *)

(** The JavaScript values that reach a template placeholder. *)
Inductive jsval : Type :=
| JUndefined
| JString (s : string)
| JBool (b : bool).

(** An object literal used as a map from placeholder names to values, in
    property insertion order. *)
Definition TagValues : Type := list (string * jsval).

Fixpoint lookupTag (k : string) (tv : TagValues) : option jsval :=
  match tv with
  | [] => None
  | (k', v) :: r => if String.eqb k k' then Some v else lookupTag k r
  end.

Definition hasTag (k : string) (tv : TagValues) : bool :=
  existsb (fun kv => String.eqb k (fst kv)) tv.

Inductive JsError : Type :=
| Error (message : string)          (* [throw new Error(message)] of this module *)
| TypeError (message : string)      (* a call of [undefined] *)
| Thrown (message : string).        (* whatever a collaborator throws *)

Inductive Result (A : Type) : Type :=
| Ok (a : A)
| Throw (e : JsError).
Arguments Ok {A} a.
Arguments Throw {A} e.

(** What the builders read from outside: the clock behind
    [new Date().toISOString()] and the state of the identifier generator. *)
Record World : Type := { clock : string; seed : nat }.

(** Calls into collaborators, recorded with the arguments handed over. *)
Inductive Event : Type :=
| GenerateID (result : string)
| ReplaceTags (template : string) (tvalue : TagValues)
| CustomTags (template : string)
| Sign (octetString key : string) (passphrase : option string) (algorithm : string).

(** State (the world), a trace of collaborator calls, and exceptions. *)
Definition M (A : Type) : Type := World -> Result A * World * list Event.

Definition ret {A} (a : A) : M A := fun w => (Ok a, w, []).

Definition throw {A} (e : JsError) : M A := fun w => (Throw e, w, []).

Definition bind {A B} (m : M A) (f : A -> M B) : M B :=
  fun w =>
    match m w with
    | (Ok a, w1, t1) => let '(r, w2, t2) := f a w1 in (r, w2, (t1 ++ t2)%list)
    | (Throw e, w1, t1) => (Throw e, w1, t1)
    end.

Notation "x <- c1 ;; c2" := (bind c1 (fun x => c2))
  (at level 61, c1 at next level, right associativity).
Notation "' pat <- c1 ;; c2" := (bind c1 (fun x => match x with pat => c2 end))
  (at level 61, pat pattern, c1 at next level, right associativity).

(** The projections of a run. *)
Definition resultOf {A} (r : Result A * World * list Event) : Result A := fst (fst r).
Definition traceOf {A} (r : Result A * World * list Event) : list Event := snd r.

(** The octet strings handed to the signing collaborator during a run. *)
Fixpoint signingInputs (t : list Event) : list string :=
  match t with
  | [] => []
  | Sign o _ _ _ :: r => o :: signingInputs r
  | _ :: r => signingInputs r
  end.

(** The placeholder maps handed to the template substitution during a run. *)
Fixpoint substitutions (t : list Event) : list TagValues :=
  match t with
  | [] => []
  | ReplaceTags _ tv :: r => tv :: substitutions r
  | _ :: r => substitutions r
  end.

(* ------------------------------------------------------------------ *)
(** ** Constants and views of the collaborators *)

(** Modelled from the spec: urn.ts is not under src/. The kinds of message
    (section 3, [messageKind]) that [wording.urlParams] names, and the wire
    names of section 6. *)
Inductive MessageKind : Type := AuthnRequest | LogoutRequest | LogoutResponse.

Module urlParams.
Definition samlRequest : MessageKind := AuthnRequest.
Definition logoutRequest : MessageKind := LogoutRequest.
Definition logoutResponse : MessageKind := LogoutResponse.
Definition relayState : string := "RelayState".
Definition sigAlg : string := "SigAlg".
Definition signature : string := "Signature".
End urlParams.

(** Modelled from the spec: libsaml.getQueryParamByType is not under src/.
    Section 4.1, step 4: authentication and logout requests use the request
    parameter, a logout response the response parameter. *)
Definition getQueryParamByType (type : MessageKind) : string :=
  match type with
  | AuthnRequest | LogoutRequest => "SAMLRequest"
  | LogoutResponse => "SAMLResponse"
  end.

(** [entity.entitySetting]: the fields this module reads. *)
Record EntitySetting : Type := {
  requestSignatureAlgorithm : string;
  privateKey : string;
  privateKeyPass : option string;
  loginRequestTemplate : option string;
  logoutRequestTemplate : option string;
  logoutResponseTemplate : option string;
  generateID : World -> string * World;
  loginNameIDFormat : string;
  logoutNameIDFormat : string;
  allowCreate : jsval;
  wantLogoutRequestSigned : bool;
  wantLogoutResponseSigned : bool
}.

(** [entity.entityMeta]: the methods this module calls. *)
Record EntityMeta : Type := {
  getEntityID : string;
  getSingleSignOnService : string -> string;
  getSingleLogoutService : string -> string;
  getAssertionConsumerService : string -> string;
  isAuthnRequestSigned : bool
}.

(** An identity or service provider; its metadata may be undefined. *)
Record Entity : Type := {
  entityMeta : option EntityMeta;
  entitySetting : EntitySetting
}.

(** [{ idp, sp }] of the login builder. *)
Record LoginEntity : Type := { idp : Entity; sp : Entity }.

(** [{ init, target }] of the logout builders. *)
Record LogoutEntity : Type := { init : Entity; target : Entity }.

(** [user]: the session of the logged-in subject. *)
Record User : Type := { logoutNameID : jsval; sessionIndex : jsval }.

(** [requestInfo]: the parsed logout request a response answers. Every
    level may be undefined, the identifier included. *)
Record LogoutRequestInfo : Type := { requestId : option string }.
Record Extract : Type := { logoutrequest : option LogoutRequestInfo }.
Record RequestInfo : Type := { extract : option Extract }.

(** [BindingContext] of entity.ts: an identifier and a context. *)
Record BindingContext : Type := { id : string; context : string }.

Module BuildRedirectConfig.
Record t : Type := mk {
  baseUrl : string;
  type : MessageKind;
  isSigned : bool;
  context : string;
  entitySetting : EntitySetting;
  relayState : option string
}.
End BuildRedirectConfig.

(** libsaml: the signer, the template substitution and the default
    templates. *)
Record Libsaml : Type := {
  constructMessageSignature :
    string -> string -> option string -> option bool -> string -> Result string;
  replaceTagsByValue : string -> TagValues -> string;
  defaultLoginRequestTemplate : string;
  defaultLogoutRequestTemplate : string;
  defaultLogoutResponseTemplate : string
}.

(** urn.ts: [wording.binding] and [namespace]. *)
Record Urn : Type := {
  binding_redirect : string;
  namespace_format : string -> option string;
  namespace_format_emailAddress : string;
  namespace_statusCode_success : string
}.

(** A value used as a condition: [undefined] and [''] are falsy. *)
Definition truthy (s : option string) : bool :=
  match s with
  | Some x => negb (String.eqb x "")
  | None => false
  end.

(** [v === undefined ? JUndefined : v] as a placeholder value. *)
Definition jsOfOption (s : option string) : jsval :=
  match s with
  | Some x => JString x
  | None => JUndefined
  end.

(* ------------------------------------------------------------------ *)
(** ** Reading a query string back

    The receiving party cuts the URL at [?] and at every [&], and each
    segment at its first [=]. *)

Definition isSeparator (c : ascii) : bool := Ascii.eqb c "?" || Ascii.eqb c "&".

(** What precedes the first separator, and the segments that follow. *)
Fixpoint splitQuery (s : string) : string * list string :=
  match s with
  | EmptyString => ("", [])
  | String c r =>
      let '(h, t) := splitQuery r in
      if isSeparator c then ("", h :: t) else (String c h, t)
  end.

Fixpoint keyValue (s : string) : string * string :=
  match s with
  | EmptyString => ("", "")
  | String c r =>
      if Ascii.eqb c "=" then ("", r)
      else let '(k, v) := keyValue r in (String c k, v)
  end.

(** The parameters of a URL, in order. *)
Definition queryParams (url : string) : list (string * string) :=
  map keyValue (snd (splitQuery url)).

(** The parameters of a bare query string such as the signing input. *)
Definition parseQuery (q : string) : list (string * string) :=
  map keyValue (fst (splitQuery q) :: snd (splitQuery q)).

Definition keys (ps : list (string * string)) : list string := map fst ps.

Definition hasKey (k : string) (ps : list (string * string)) : bool :=
  existsb (String.eqb k) (keys ps).

(** [k2] is the parameter that comes right after [k1]. *)
Fixpoint follows (k1 k2 : string) (ks : list string) : bool :=
  match ks with
  | a :: ((b :: _) as r) => (String.eqb a k1 && String.eqb b k2) || follows k1 k2 r
  | _ => false
  end.

(** [k=v]. *)
Definition renderParam (kv : string * string) : string := fst kv ++ "=" ++ snd kv.

(** [k1=v1&k2=v2&...]. *)
Definition renderQuery (ps : list (string * string)) : string :=
  String.concat "&" (map renderParam ps).

Definition notSeparator (c : ascii) : bool := negb (isSeparator c).
Definition notEquals (c : ascii) : bool := negb (Ascii.eqb c "=").

(** A character that is neither a separator nor [=]. *)
Definition plainChar (c : ascii) : bool := notSeparator c && notEquals c.

(** A parameter whose name and value hold no [?], [&] or [=]. *)
Definition plainParam (kv : string * string) : bool :=
  allChars plainChar (fst kv) && allChars plainChar (snd kv).

(* ------------------------------------------------------------------ *)
(** ** Reference collaborators

    Executable stand-ins for the collaborators that live outside this
    module, used to run the builders on concrete inputs. *)

(** *** Raw deflate with stored blocks (RFC 1951, section 3.2.4)

    Each block is a header byte (bit 0 set on the final block, block type
    00), the length of the data on two bytes, least significant first, its
    one's complement, and the data. *)

Definition maxBlock : nat := 256 * 256 - 1.

Fixpoint takeDrop (n : nat) (s : string) : string * string :=
  match n, s with
  | S m, String c r => let '(a, b) := takeDrop m r in (String c a, b)
  | _, _ => ("", s)
  end.

Definition storedBlock (final : bool) (data : string) : list ascii :=
  let n := String.length data in
  ((if final then one else zero)
   :: ascii_of_nat (n mod 256) :: ascii_of_nat (n / 256)
   :: ascii_of_nat (255 - n mod 256) :: ascii_of_nat (255 - n / 256)
   :: list_ascii_of_string data)%list.

Fixpoint storedDeflateFrom (fuel : nat) (s : string) : list ascii :=
  let '(data, rest) := takeDrop maxBlock s in
  match rest, fuel with
  | String _ _, S fuel' => (storedBlock false data ++ storedDeflateFrom fuel' rest)%list
  | _, _ => storedBlock true data
  end.

Definition storedDeflate (s : string) : list ascii :=
  storedDeflateFrom (String.length s) s.

(** Reads [n] more bytes of the current block, then the next header unless
    the block was the final one. *)
Fixpoint storedInflateFrom (n : nat) (final : bool) (bs : list ascii) {struct bs}
  : option string :=
  match n with
  | S m =>
      match bs with
      | b :: r => option_map (String b) (storedInflateFrom m final r)
      | [] => None
      end
  | 0 =>
      if final then match bs with [] => Some "" | _ => None end
      else
        match bs with
        | h :: l0 :: l1 :: n0 :: n1 :: r =>
            if (nat_of_ascii h <=? 1)
               && (nat_of_ascii l0 + nat_of_ascii n0 =? 255)
               && (nat_of_ascii l1 + nat_of_ascii n1 =? 255)
            then storedInflateFrom (nat_of_ascii l0 + 256 * nat_of_ascii l1)
                   (nat_of_ascii h =? 1) r
            else None
        | _ => None
        end
  end.

Definition storedInflate (bs : list ascii) : option string :=
  storedInflateFrom 0 false bs.

(** *** [url.parse(u).query]: what lies between the first [?] and the
    fragment *)

Fixpoint beforeHash (s : string) : string :=
  match s with
  | EmptyString => ""
  | String c r => if Ascii.eqb c "#" then "" else String c (beforeHash r)
  end.

Fixpoint afterQuestionMark (s : string) : option string :=
  match s with
  | EmptyString => None
  | String c r => if Ascii.eqb c "?" then Some r else afterQuestionMark r
  end.

Definition simpleQuery (u : string) : option string := afterQuestionMark (beforeHash u).

(** *** [url.parse(u)] throws when the user information cannot be
    percent-decoded *)

(** What follows the first [//]. *)
Fixpoint afterSlashes (s : string) : option string :=
  match s with
  | EmptyString => None
  | String c r =>
      match r with
      | String d r' =>
          if Ascii.eqb c "/" && Ascii.eqb d "/" then Some r' else afterSlashes r
      | EmptyString => None
      end
  end.

(** The authority: up to the first [/], [?] or [#]. *)
Fixpoint untilHostEnd (s : string) : string :=
  match s with
  | EmptyString => ""
  | String c r =>
      if Ascii.eqb c "/" || Ascii.eqb c "?" || Ascii.eqb c "#" then ""
      else String c (untilHostEnd r)
  end.

(** What stands before the last [@], if there is one. *)
Fixpoint beforeLastAt (s : string) : option string :=
  match s with
  | EmptyString => None
  | String c r =>
      match beforeLastAt r with
      | Some a => Some (String c a)
      | None => if Ascii.eqb c "@" then Some "" else None
      end
  end.

Definition userInformation (u : string) : option string :=
  match afterSlashes u with
  | Some rest => beforeLastAt (untilHostEnd rest)
  | None => None
  end.

(** Node decodes the user information while it parses, and the URIError
    of a malformed escape there is thrown by [url.parse]. *)
Definition undecodableAuth (u : string) : option JsError :=
  match userInformation u with
  | Some auth =>
      match decodeURIComponent auth with
      | Some _ => None
      | None => Some (Thrown "URIError: URI malformed")
      end
  | None => None
  end.

(** *** Template substitution: every [{Tag}] replaced by its value *)

Definition jsToString (v : jsval) : string :=
  match v with
  | JUndefined => "undefined"
  | JString s => s
  | JBool true => "true"
  | JBool false => "false"
  end.

(** [skip] characters of a match are still to be dropped. *)
Fixpoint replaceAll (pat val : string) (skip : nat) (s : string) : string :=
  match s with
  | EmptyString => ""
  | String c r =>
      match skip with
      | S k => replaceAll pat val k r
      | 0 =>
          if String.prefix pat s
          then val ++ replaceAll pat val (String.length pat - 1) r
          else String c (replaceAll pat val 0 r)
      end
  end.

Definition simpleReplaceTags (rawXML : string) (tagValues : TagValues) : string :=
  fold_left
    (fun xml tv => replaceAll ("{" ++ fst tv ++ "}") (jsToString (snd tv)) 0 xml)
    tagValues rawXML.

Definition refLibsaml (signer : string -> Result string) : Libsaml :=
  {| constructMessageSignature := fun octetString _ _ _ _ => signer octetString;
     replaceTagsByValue := simpleReplaceTags;
     defaultLoginRequestTemplate := "<AuthnRequest ID='{ID}' Destination='{Destination}'/>";
     defaultLogoutRequestTemplate := "<LogoutRequest ID='{ID}'/>";
     defaultLogoutResponseTemplate :=
       "<LogoutResponse ID='{ID}' InResponseTo='{InResponseTo}'/>" |}.

(** A signer that answers with a fixed base64 text, and one that fails. *)
Definition fixedSigner (octetString : string) : Result string := Ok "c2ln+/8=".
Definition failingSigner (octetString : string) : Result string :=
  Throw (Thrown "no private key").

Definition refUrn : Urn :=
  {| binding_redirect := "redirect";
     namespace_format := fun k =>
       if String.eqb k "transient"
       then Some "urn:oasis:names:tc:SAML:2.0:nameid-format:transient"
       else None;
     namespace_format_emailAddress :=
       "urn:oasis:names:tc:SAML:1.1:nameid-format:emailAddress";
     namespace_statusCode_success := "urn:oasis:names:tc:SAML:2.0:status:Success" |}.

Definition refSetting (signed : bool) : EntitySetting :=
  {| requestSignatureAlgorithm := "http://www.w3.org/2001/04/xmldsig-more#rsa-sha256";
     privateKey := "key";
     privateKeyPass := None;
     loginRequestTemplate := None;
     logoutRequestTemplate := None;
     logoutResponseTemplate := None;
     generateID := fun w =>
       (String "_" (String (ascii_of_nat (48 + seed w mod 10)) ""),
        {| clock := clock w; seed := S (seed w) |});
     loginNameIDFormat := "transient";
     logoutNameIDFormat := "";
     allowCreate := JBool false;
     wantLogoutRequestSigned := signed;
     wantLogoutResponseSigned := signed |}.

Definition refMeta (endpoint : string) (signed : bool) : EntityMeta :=
  {| getEntityID := "https://sp.example/metadata";
     getSingleSignOnService := fun _ => endpoint;
     getSingleLogoutService := fun _ => endpoint;
     getAssertionConsumerService := fun _ => "https://sp.example/acs";
     isAuthnRequestSigned := signed |}.

Definition refEntity (endpoint : string) (signed : bool) : Entity :=
  {| entityMeta := Some (refMeta endpoint signed); entitySetting := refSetting signed |}.

Definition noMetadata : Entity :=
  {| entityMeta := None; entitySetting := refSetting false |}.

Definition refUser : User :=
  {| logoutNameID := JString "user@sp.example"; sessionIndex := JString "_s1" |}.

Definition refWorld : World := {| clock := "2017-03-01T00:00:00.000Z"; seed := 7 |}.

Definition refLogoutEntity (signed : bool) : LogoutEntity :=
  {| init := refEntity "https://sp.example/slo" signed;
     target := refEntity "https://idp.example/slo" signed |}.

Definition refLoginEntity (endpoint : string) (signed : bool) : LoginEntity :=
  {| idp := refEntity endpoint false;
     sp := refEntity "https://sp.example/acs" signed |}.

Definition refOpts (baseUrl : string) (signed : bool) (relayState : option string)
  : BuildRedirectConfig.t :=
  BuildRedirectConfig.mk baseUrl urlParams.logoutRequest signed "<x/>"
    (refSetting signed) relayState.

(** The request info of a logout request that was extracted without its
    identifier: [{ extract: { logoutrequest: {} } }]. *)
Definition anonymousRequestInfo : option RequestInfo :=
  Some {| extract := Some {| logoutrequest := Some {| requestId := None |} |} |}.

(** The request info of scenario 4. *)
Definition knownRequestInfo : option RequestInfo :=
  Some {| extract := Some {| logoutrequest := Some {| requestId := Some "_abc123" |} |} |}.

(** The URLs of the signed logout request of scenario 3 and of a signed
    login request. *)
Definition signedLogoutURL : string :=
  "https://idp.example/slo?SAMLRequest=ARgA5%2F88TG9nb3V0UmVxdWVzdCBJRD0nXzcnLz4%3D&SigAlg=http%3A%2F%2Fwww.w3.org%2F2001%2F04%2Fxmldsig-more%23rsa-sha256&RelayState=deeplink123&Signature=c2ln%2B%2F8%3D".

Definition signedLoginURL : string :=
  "https://idp.example/sso?SAMLRequest=AT0Awv88QXV0aG5SZXF1ZXN0IElEPSdfNycgRGVzdGluYXRpb249J2h0dHBzOi8vaWRwLmV4YW1wbGUvc3NvJy8%2B&SigAlg=http%3A%2F%2Fwww.w3.org%2F2001%2F04%2Fxmldsig-more%23rsa-sha256&Signature=c2ln%2B%2F8%3D".

(** A setting with templates of the caller's, and callbacks for them: one
    that fills the identifier in, one that throws. *)
Definition refCustomSetting : EntitySetting :=
  {| requestSignatureAlgorithm := "http://www.w3.org/2001/04/xmldsig-more#rsa-sha256";
     privateKey := "key";
     privateKeyPass := None;
     loginRequestTemplate := Some "<AuthnRequest ID='{ID}'/>";
     logoutRequestTemplate := Some "<LogoutRequest ID='{ID}'/>";
     logoutResponseTemplate := Some "<LogoutResponse ID='{ID}'/>";
     generateID := fun w => ("_unused", w);
     loginNameIDFormat := "";
     logoutNameIDFormat := "";
     allowCreate := JUndefined;
     wantLogoutRequestSigned := false;
     wantLogoutResponseSigned := false |}.

Definition refCallback (template : string) : Result BindingContext :=
  Ok {| id := "_custom1"; context := replaceAll "{ID}" "_custom1" 0 template |}.

Definition failingCallback (template : string) : Result BindingContext :=
  Throw (Thrown "no such template").

Definition refCustomLoginEntity : LoginEntity :=
  {| idp := refEntity "https://idp.example/sso" false;
     sp := {| entityMeta := Some (refMeta "https://sp.example/acs" false);
              entitySetting := refCustomSetting |} |}.

(* ------------------------------------------------------------------ *)
(** ** binding-redirect.ts *)

(** [pvPair(param, value, first?)]. *)
Definition pvPair (param value : string) (first : option bool) : string :=
  (((if match first with Some true => true | _ => false end then "?" else "&")
      ++ param) ++ "=") ++ value.

Section Redirect.

(** utility.deflateString: the raw deflate of an external library. *)
Variable deflateString : string -> list ascii.
(** [url.parse(u).query] of Node: [None] is [null]. *)
Variable url_parse_query : string -> option string.
Variable libsaml : Libsaml.
Variable urn : Urn.

(** [libsaml.constructMessageSignature(...)], which may throw. *)
Definition callSigner (octetString key : string) (pass : option string)
    (alg : string) : M string :=
  fun w => (constructMessageSignature libsaml octetString key pass None alg,
            w, [Sign octetString key pass alg]).

(** [libsaml.replaceTagsByValue(template, tvalue)]. *)
Definition callReplaceTags (template : string) (tvalue : TagValues) : M string :=
  fun w => (Ok (replaceTagsByValue libsaml template tvalue), w,
            [ReplaceTags template tvalue]).

(** [setting.generateID()]. *)
Definition callGenerateID (setting : EntitySetting) : M string :=
  fun w => let '(i, w') := generateID setting w in (Ok i, w', [GenerateID i]).

(** [new Date().toISOString()]. *)
Definition toISOString : M string := fun w => (Ok (clock w), w, []).

(** [customTagReplacement(template)]: the callback is optional, and calling
    [undefined] is a TypeError. *)
Definition callCustomTagReplacement
    (customTagReplacement : option (string -> Result BindingContext))
    (template : option string) : M BindingContext :=
  match customTagReplacement with
  | Some f =>
      fun w => (f (match template with Some s => s | None => "" end), w,
                [CustomTags (match template with Some s => s | None => "" end)])
  | None => throw (TypeError "customTagReplacement is not a function")
  end.

(** [namespace.format[k] || namespace.format.emailAddress]. *)
Definition nameIDFormat (k : string) : string :=
  match namespace_format urn k with
  | Some f => if String.eqb f "" then namespace_format_emailAddress urn else f
  | None => namespace_format_emailAddress urn
  end.

Definition buildRedirectURL (opts : BuildRedirectConfig.t) : M string :=
  let baseUrl := BuildRedirectConfig.baseUrl opts in
  let type := BuildRedirectConfig.type opts in
  let isSigned := BuildRedirectConfig.isSigned opts in
  let context := BuildRedirectConfig.context opts in
  let entitySetting := BuildRedirectConfig.entitySetting opts in
  let relayState :=
    match BuildRedirectConfig.relayState opts with Some r => r | None => "" end in
  let noParams :=
    match url_parse_query baseUrl with
    | Some q => String.length q =? 0
    | None => true
    end in
  let queryParam := getQueryParamByType type in
  let samlRequest := encodeURIComponent (base64Encode (deflateString context)) in
  let relayState :=
    if negb (String.eqb relayState "")
    then pvPair urlParams.relayState (encodeURIComponent relayState) None
    else relayState in
  if isSigned then
    let sigAlg :=
      pvPair urlParams.sigAlg
        (encodeURIComponent (requestSignatureAlgorithm entitySetting)) None in
    let octetString := (samlRequest ++ sigAlg) ++ relayState in
    signature <- callSigner ((queryParam ++ "=") ++ octetString)
                   (privateKey entitySetting) (privateKeyPass entitySetting)
                   (requestSignatureAlgorithm entitySetting) ;;
    ret ((baseUrl ++ pvPair queryParam octetString (Some noParams))
           ++ pvPair urlParams.signature (encodeURIComponent signature) None)
  else
    ret (baseUrl ++ pvPair queryParam (samlRequest ++ relayState) (Some noParams)).

Definition loginRequestRedirectURL (entity : LoginEntity)
    (customTagReplacement : option (string -> Result BindingContext))
    : M BindingContext :=
  let spSetting := entitySetting (sp entity) in
  match entityMeta (idp entity), entityMeta (sp entity) with
  | Some metadata_idp, Some metadata_sp =>
      let base := getSingleSignOnService metadata_idp (binding_redirect urn) in
      '(id, rawSamlRequest) <-
        (if truthy (loginRequestTemplate spSetting) then
           info <- callCustomTagReplacement customTagReplacement
                     (loginRequestTemplate spSetting) ;;
           ret (id info, context info)
         else
           id <- callGenerateID spSetting ;;
           now <- toISOString ;;
           rawSamlRequest <-
             callReplaceTags (defaultLoginRequestTemplate libsaml)
               [ ("ID", JString id);
                 ("Destination", JString base);
                 ("Issuer", JString (getEntityID metadata_sp));
                 ("IssueInstant", JString now);
                 ("NameIDFormat", JString (nameIDFormat (loginNameIDFormat spSetting)));
                 ("AssertionConsumerServiceURL",
                  JString (getAssertionConsumerService metadata_sp (binding_redirect urn)));
                 ("EntityID", JString (getEntityID metadata_sp));
                 ("AllowCreate", allowCreate spSetting) ] ;;
           ret (id, rawSamlRequest)) ;;
      url <- buildRedirectURL
               (BuildRedirectConfig.mk base urlParams.samlRequest
                  (isAuthnRequestSigned metadata_sp) rawSamlRequest spSetting None) ;;
      ret {| id := id; context := url |}
  | _, _ => throw (Error "Missing declaration of metadata")
  end.

Definition logoutRequestRedirectURL (user : User) (entity : LogoutEntity)
    (relayState : option string)
    (customTagReplacement : option (string -> Result BindingContext))
    : M BindingContext :=
  let initSetting := entitySetting (init entity) in
  match entityMeta (init entity), entityMeta (target entity) with
  | Some metadata_init, Some metadata_target =>
      let base := getSingleLogoutService metadata_target (binding_redirect urn) in
      '(id, rawSamlRequest) <-
        (if truthy (logoutRequestTemplate initSetting) then
           info <- callCustomTagReplacement customTagReplacement
                     (logoutRequestTemplate initSetting) ;;
           ret (id info, context info)
         else
           id <- callGenerateID initSetting ;;
           now <- toISOString ;;
           rawSamlRequest <-
             callReplaceTags (defaultLogoutRequestTemplate libsaml)
               [ ("ID", JString id);
                 ("Destination", JString base);
                 ("EntityID", JString (getEntityID metadata_init));
                 ("Issuer", JString (getEntityID metadata_init));
                 ("IssueInstant", JString now);
                 ("NameIDFormat", JString (nameIDFormat (logoutNameIDFormat initSetting)));
                 ("NameID", logoutNameID user);
                 ("SessionIndex", sessionIndex user) ] ;;
           ret (id, rawSamlRequest)) ;;
      url <- buildRedirectURL
               (BuildRedirectConfig.mk base urlParams.logoutRequest
                  (wantLogoutRequestSigned (entitySetting (target entity)))
                  rawSamlRequest initSetting relayState) ;;
      ret {| id := id; context := url |}
  | _, _ => throw (Error "Missing declaration of metadata")
  end.

(** The placeholders of the default logout response: the object literal,
    then the conditional assignment of [InResponseTo]. *)
Definition logoutResponseTagValues (id base issuer now : string)
    (requestInfo : option RequestInfo) : TagValues :=
  let tvalue :=
    [ ("ID", JString id);
      ("Destination", JString base);
      ("Issuer", JString issuer);
      ("EntityID", JString issuer);
      ("IssueInstant", JString now);
      ("StatusCode", JString (namespace_statusCode_success urn)) ] in
  match requestInfo with
  | Some {| extract := Some {| logoutrequest := Some request |} |} =>
      (tvalue ++ [("InResponseTo", jsOfOption (requestId request))])%list
  | _ => tvalue
  end.

Definition logoutResponseRedirectURL (requestInfo : option RequestInfo)
    (entity : LogoutEntity) (relayState : option string)
    (customTagReplacement : option (string -> Result BindingContext))
    : M BindingContext :=
  let initSetting := entitySetting (init entity) in
  match entityMeta (init entity), entityMeta (target entity) with
  | Some metadata_init, Some metadata_target =>
      let base := getSingleLogoutService metadata_target (binding_redirect urn) in
      '(id, rawSamlResponse) <-
        (if truthy (logoutResponseTemplate initSetting) then
           template <- callCustomTagReplacement customTagReplacement
                         (logoutResponseTemplate initSetting) ;;
           ret (id template, context template)
         else
           id <- callGenerateID initSetting ;;
           now <- toISOString ;;
           rawSamlResponse <-
             callReplaceTags (defaultLogoutResponseTemplate libsaml)
               (logoutResponseTagValues id base (getEntityID metadata_init) now
                  requestInfo) ;;
           ret (id, rawSamlResponse)) ;;
      url <- buildRedirectURL
               (BuildRedirectConfig.mk base urlParams.logoutResponse
                  (wantLogoutResponseSigned (entitySetting (target entity)))
                  rawSamlResponse initSetting relayState) ;;
      ret {| id := id; context := url |}
  | _, _ => throw (Error "Missing declaration of metadata")
  end.


(** *** The parameters the encoder emits, as section 4 describes them *)

Definition encodedPayload (context : string) : string :=
  encodeURIComponent (base64Encode (deflateString context)).

(** The RelayState parameter: present when a non-empty value is supplied. *)
Definition relayStateParam (relayState : option string) : list (string * string) :=
  match relayState with
  | Some r => if String.eqb r "" then [] else [("RelayState", encodeURIComponent r)]
  | None => []
  end.

(** [paramName=payload&SigAlg=alg[&RelayState=relayState]]. *)
Definition signedParams (opts : BuildRedirectConfig.t) : list (string * string) :=
  [ (getQueryParamByType (BuildRedirectConfig.type opts),
     encodedPayload (BuildRedirectConfig.context opts));
    ("SigAlg", encodeURIComponent
                 (requestSignatureAlgorithm (BuildRedirectConfig.entitySetting opts))) ]
  ++ relayStateParam (BuildRedirectConfig.relayState opts).

Definition unsignedParams (opts : BuildRedirectConfig.t) : list (string * string) :=
  (getQueryParamByType (BuildRedirectConfig.type opts),
   encodedPayload (BuildRedirectConfig.context opts))
  :: relayStateParam (BuildRedirectConfig.relayState opts).

Definition canonicalSigningInput (opts : BuildRedirectConfig.t) : string :=
  renderQuery (signedParams opts).



(** The logout request that [requestInfo] carries, if any:
    [requestInfo && requestInfo.extract && requestInfo.extract.logoutrequest]. *)
Definition extractedRequest (requestInfo : option RequestInfo)
  : option LogoutRequestInfo :=
  match requestInfo with
  | Some info =>
      match extract info with
      | Some e => logoutrequest e
      | None => None
      end
  | None => None
  end.

(** The identifier of that request, if it has one. *)
Definition extractedRequestId (requestInfo : option RequestInfo) : option string :=
  match extractedRequest requestInfo with
  | Some request => requestId request
  | None => None
  end.

(** [?] in front of the first parameter of a URL that has none yet. *)
Definition firstSeparator (baseUrl : string) : ascii :=
  match url_parse_query baseUrl with
  | Some q => if String.length q =? 0 then "?"%char else "&"%char
  | None => "?"%char
  end.

(** [url.parse(baseUrl)] of line 57 does not return for every string: on
    some, Node throws (a URIError when the user information of the URL
    cannot be percent-decoded). [Some e] is the error thrown; [None] is a
    parse that returns, with the query that [url_parse_query] gives. *)
Variable url_parse_throws : string -> option JsError.

(** [buildRedirectURL] with that failure. The parse is the first statement
    of the function that can fail and nothing catches what it throws, so
    the call ends there; on the base URLs that are parsed the function is
    [buildRedirectURL] above. *)
Definition buildRedirectURL_parsing (opts : BuildRedirectConfig.t) : M string :=
  match url_parse_throws (BuildRedirectConfig.baseUrl opts) with
  | Some e => throw e
  | None => buildRedirectURL opts
  end.


(* ---------------------------------------------------------------- *)
(** ** Strings and escaping *)

Lemma append_nil_r (s : string) : s ++ "" = s.
Proof. induction s as [|c s IH]; simpl; [reflexivity | now rewrite IH]. Qed.

Lemma append_assoc (a b c : string) : (a ++ b) ++ c = a ++ (b ++ c).
Proof. induction a as [|x a IH]; simpl; [reflexivity | now rewrite IH]. Qed.

Lemma allChars_app p a b : allChars p (a ++ b) = allChars p a && allChars p b.
Proof.
  induction a as [|x a IH]; simpl; [reflexivity|].
  now rewrite IH, andb_assoc.
Qed.

Lemma allChars_weaken (p q : ascii -> bool) s :
  (forall c, p c = true -> q c = true) ->
  allChars p s = true -> allChars q s = true.
Proof.
  intros Hpq; induction s as [|c s IH]; simpl; [reflexivity|].
  intros H; apply andb_true_iff in H as [Hc Hs].
  now rewrite (Hpq _ Hc), IH.
Qed.

(** An escaped character holds no [?], [&] or [=]. *)
Lemma encodeURIChar_plain c : allChars plainChar (encodeURIChar c) = true.
Proof.
  destruct c as [[] [] [] [] [] [] [] []]; vm_compute; reflexivity.
Qed.

Lemma encodeURIComponent_plain s : allChars plainChar (encodeURIComponent s) = true.
Proof.
  induction s as [|c s IH]; simpl; [reflexivity|].
  now rewrite allChars_app, encodeURIChar_plain, IH.
Qed.

Lemma decode_encodeURIChar c t :
  decodeURIComponent (encodeURIChar c ++ t)
  = option_map (String c) (decodeURIComponent t).
Proof.
  destruct c as [[] [] [] [] [] [] [] []];
    match goal with
    | |- decodeURIComponent (?e ++ t) = _ =>
        let v := eval vm_compute in e in change e with v
    end;
    cbn; destruct (decodeURIComponent t); reflexivity.
Qed.

(* ---------------------------------------------------------------- *)
(** ** Query strings *)

Lemma plainChar_notSeparator c : plainChar c = true -> notSeparator c = true.
Proof. unfold plainChar, notSeparator; intros H; now apply andb_true_iff in H. Qed.

Lemma plainChar_notEquals c : plainChar c = true -> notEquals c = true.
Proof. unfold plainChar, notEquals; intros H; now apply andb_true_iff in H. Qed.

Lemma splitQuery_plain t :
  allChars notSeparator t = true -> splitQuery t = (t, []).
Proof.
  induction t as [|c t IH]; simpl; [reflexivity|].
  intros H; apply andb_true_iff in H as [Hc Ht].
  rewrite (IH Ht). unfold notSeparator in Hc.
  apply negb_true_iff in Hc. now rewrite Hc.
Qed.

Lemma splitQuery_app_sep a c b :
  isSeparator c = true ->
  splitQuery (a ++ String c b)
  = (fst (splitQuery a),
     (snd (splitQuery a) ++ fst (splitQuery b) :: snd (splitQuery b))%list).
Proof.
  intros Hc; induction a as [|x a IH]; simpl.
  - rewrite Hc. now destruct (splitQuery b).
  - rewrite IH. destruct (splitQuery a) as [h t]; simpl.
    now destruct (isSeparator x).
Qed.

Lemma keyValue_plain k v :
  allChars notEquals k = true -> keyValue (k ++ String "=" v) = (k, v).
Proof.
  induction k as [|c k IH]; simpl; [reflexivity|].
  intros H; apply andb_true_iff in H as [Hc Hk].
  rewrite (IH Hk). unfold notEquals in Hc.
  apply negb_true_iff in Hc. now rewrite Hc.
Qed.

Lemma renderParam_notSeparator kv :
  plainParam kv = true -> allChars notSeparator (renderParam kv) = true.
Proof.
  unfold plainParam, renderParam; intros H.
  apply andb_true_iff in H as [Hk Hv].
  rewrite !allChars_app.
  rewrite (allChars_weaken _ _ _ plainChar_notSeparator Hk).
  now rewrite (allChars_weaken _ _ _ plainChar_notSeparator Hv).
Qed.

Lemma keyValue_renderParam kv :
  plainParam kv = true -> keyValue (renderParam kv) = kv.
Proof.
  unfold plainParam, renderParam; intros H.
  apply andb_true_iff in H as [Hk _]. destruct kv as [k v]; simpl in *.
  apply keyValue_plain, (allChars_weaken _ _ _ plainChar_notEquals Hk).
Qed.

Lemma renderQuery_cons kv ps :
  renderQuery (kv :: ps)
  = match ps with
    | [] => renderParam kv
    | _ :: _ => renderParam kv ++ String "&" (renderQuery ps)
    end.
Proof. destruct ps; reflexivity. Qed.

Lemma splitQuery_renderQuery kv ps :
  forallb plainParam (kv :: ps) = true ->
  splitQuery (renderQuery (kv :: ps)) = (renderParam kv, map renderParam ps).
Proof.
  revert kv; induction ps as [|p ps IH]; intros kv H; rewrite renderQuery_cons.
  - simpl in H. rewrite andb_true_r in H.
    apply splitQuery_plain, renderParam_notSeparator, H.
  - change (forallb plainParam (kv :: p :: ps))
      with (plainParam kv && forallb plainParam (p :: ps)) in H.
    apply andb_true_iff in H as [Hkv Hps].
    rewrite splitQuery_app_sep by reflexivity.
    rewrite (IH _ Hps), (splitQuery_plain _ (renderParam_notSeparator _ Hkv)).
    reflexivity.
Qed.

Lemma map_keyValue_renderParam ps :
  forallb plainParam ps = true -> map keyValue (map renderParam ps) = ps.
Proof.
  induction ps as [|p ps IH]; simpl; [reflexivity|].
  intros H; apply andb_true_iff in H as [Hp Hps].
  now rewrite (keyValue_renderParam _ Hp), (IH Hps).
Qed.

(** Reading back a rendered query gives the parameters it was made of. *)
Lemma parseQuery_renderQuery kv ps :
  forallb plainParam (kv :: ps) = true ->
  parseQuery (renderQuery (kv :: ps)) = kv :: ps.
Proof.
  intros H. unfold parseQuery. rewrite (splitQuery_renderQuery _ _ H); simpl.
  change (map keyValue (map renderParam (kv :: ps)) = kv :: ps).
  now apply map_keyValue_renderParam.
Qed.

(** Parameters appended after a separator come after those of the base. *)
Lemma queryParams_append base c kv ps :
  isSeparator c = true ->
  forallb plainParam (kv :: ps) = true ->
  queryParams (base ++ String c (renderQuery (kv :: ps)))
  = (queryParams base ++ kv :: ps)%list.
Proof.
  intros Hc H. unfold queryParams.
  rewrite (splitQuery_app_sep _ _ _ Hc), (splitQuery_renderQuery _ _ H); simpl.
  rewrite map_app. f_equal.
  change (map keyValue (map renderParam (kv :: ps)) = kv :: ps).
  now apply map_keyValue_renderParam.
Qed.

(* ---------------------------------------------------------------- *)
(** ** Runs of [buildRedirectURL] *)

Ltac norm_append := repeat (rewrite append_assoc || cbn [append]).

Lemma relayStateParam_plain r : forallb plainParam (relayStateParam r) = true.
Proof.
  destruct r as [r|]; simpl; [|reflexivity].
  destruct (String.eqb r ""); simpl; [reflexivity|].
  unfold plainParam; simpl. now rewrite encodeURIComponent_plain.
Qed.

Lemma requestParam_plain type context :
  plainParam (getQueryParamByType type, encodedPayload context) = true.
Proof.
  unfold plainParam, encodedPayload; simpl.
  rewrite encodeURIComponent_plain. now destruct type.
Qed.

Lemma unsignedParams_plain opts : forallb plainParam (unsignedParams opts) = true.
Proof.
  unfold unsignedParams.
  change (forallb plainParam (?p :: ?r)) with (plainParam p && forallb plainParam r).
  now rewrite requestParam_plain, relayStateParam_plain.
Qed.

Lemma signedParams_plain opts signature :
  forallb plainParam (signedParams opts ++ [("Signature", encodeURIComponent signature)])
  = true.
Proof.
  unfold signedParams. rewrite forallb_app, forallb_app, relayStateParam_plain.
  cbn [forallb]. rewrite requestParam_plain.
  unfold plainParam; simpl. now rewrite !encodeURIComponent_plain.
Qed.

Lemma signedParams_plain' opts : forallb plainParam (signedParams opts) = true.
Proof.
  pose proof (signedParams_plain opts "") as H.
  rewrite forallb_app in H. now apply andb_true_iff in H.
Qed.

Lemma parseQuery_canonicalSigningInput opts :
  parseQuery (canonicalSigningInput opts) = signedParams opts.
Proof. apply parseQuery_renderQuery, signedParams_plain'. Qed.

Lemma firstSeparator_isSeparator baseUrl : isSeparator (firstSeparator baseUrl) = true.
Proof.
  unfold firstSeparator.
  destruct (url_parse_query baseUrl) as [q|]; [destruct (String.length q =? 0)|];
    reflexivity.
Qed.

(** The unsigned branch. *)
Lemma buildRedirectURL_unsigned_run opts w :
  BuildRedirectConfig.isSigned opts = false ->
  buildRedirectURL opts w
  = (Ok (BuildRedirectConfig.baseUrl opts
         ++ String (firstSeparator (BuildRedirectConfig.baseUrl opts))
              (renderQuery (unsignedParams opts))),
     w, []).
Proof.
  intros Hs. unfold buildRedirectURL, firstSeparator, unsignedParams, relayStateParam,
    encodedPayload, renderQuery, renderParam, ret, pvPair, urlParams.relayState.
  rewrite Hs.
  destruct (BuildRedirectConfig.relayState opts) as [r|];
    [destruct (String.eqb_spec r ""); [subst r|]|];
    (destruct (url_parse_query (BuildRedirectConfig.baseUrl opts)) as [q|];
     [destruct (String.length q =? 0)|]);
    cbn [negb map String.concat fst snd]; norm_append;
    rewrite ?append_nil_r; reflexivity.
Qed.

(** The signed branch: one call of the signer, whose failure is the
    failure of the call. *)
Lemma buildRedirectURL_signed_run opts w :
  BuildRedirectConfig.isSigned opts = true ->
  let setting := BuildRedirectConfig.entitySetting opts in
  buildRedirectURL opts w
  = (match constructMessageSignature libsaml (canonicalSigningInput opts)
             (privateKey setting) (privateKeyPass setting) None
             (requestSignatureAlgorithm setting) with
     | Ok signature =>
         Ok (BuildRedirectConfig.baseUrl opts
             ++ String (firstSeparator (BuildRedirectConfig.baseUrl opts))
                  (renderQuery (signedParams opts
                                ++ [("Signature", encodeURIComponent signature)])))
     | Throw e => Throw e
     end,
     w,
     [Sign (canonicalSigningInput opts) (privateKey setting) (privateKeyPass setting)
        (requestSignatureAlgorithm setting)]).
Proof.
  intros Hs setting; subst setting.
  unfold buildRedirectURL, canonicalSigningInput, firstSeparator, signedParams,
    relayStateParam, encodedPayload, renderQuery, renderParam, bind, callSigner, ret, pvPair,
    urlParams.relayState, urlParams.sigAlg, urlParams.signature.
  rewrite Hs.
  destruct (BuildRedirectConfig.relayState opts) as [r|];
    [destruct (String.eqb_spec r ""); [subst r|]|];
    cbn [negb map String.concat fst snd app]; norm_append; rewrite ?append_nil_r;
    (match goal with
     | |- context [constructMessageSignature libsaml ?i ?k ?p ?b ?a] =>
         destruct (constructMessageSignature libsaml i k p b a) as [sg|e]
     end;
     [|reflexivity]);
    (destruct (url_parse_query (BuildRedirectConfig.baseUrl opts)) as [q|];
     [destruct (String.length q =? 0)|]);
    cbn [negb map String.concat fst snd app]; norm_append;
    rewrite ?append_nil_r; reflexivity.
Qed.

(* ---------------------------------------------------------------- *)
(** ** The stages of the pipeline can be undone *)

Lemma decode_encodeURIComponent s :
  decodeURIComponent (encodeURIComponent s) = Some s.
Proof.
  induction s as [|c s IH]; [reflexivity|].
  cbn [encodeURIComponent]. now rewrite decode_encodeURIChar, IH.
Qed.







(** *** Stored blocks *)









(* ---------------------------------------------------------------- *)
(** ** The Redirect Query Encoder and Signature Attachment *)





(** What a successful call returns, and the trace it leaves. *)
Lemma buildRedirectURL_Ok opts w url w' t :
  buildRedirectURL opts w = (Ok url, w', t) ->
  let baseUrl := BuildRedirectConfig.baseUrl opts in
  exists ps,
    url = baseUrl ++ String (firstSeparator baseUrl) (renderQuery ps)
    /\ forallb plainParam ps = true
    /\ queryParams url = (queryParams baseUrl ++ ps)%list
    /\ ((BuildRedirectConfig.isSigned opts = false
         /\ ps = unsignedParams opts /\ t = [])
        \/ (BuildRedirectConfig.isSigned opts = true
            /\ exists signature,
                ps = (signedParams opts
                      ++ [("Signature", encodeURIComponent signature)])%list
                /\ t = [Sign (canonicalSigningInput opts)
                          (privateKey (BuildRedirectConfig.entitySetting opts))
                          (privateKeyPass (BuildRedirectConfig.entitySetting opts))
                          (requestSignatureAlgorithm
                             (BuildRedirectConfig.entitySetting opts))])).
Proof.
  intros H baseUrl.
  destruct (BuildRedirectConfig.isSigned opts) eqn:Hs.
  - rewrite (buildRedirectURL_signed_run opts w Hs) in H. cbv zeta in H.
    destruct (constructMessageSignature libsaml _ _ _ _ _) as [sg|e];
      [|discriminate].
    injection H as <- _ <-.
    exists (signedParams opts ++ [("Signature", encodeURIComponent sg)])%list.
    pose proof (signedParams_plain opts sg) as Hp.
    repeat split; auto.
    + unfold signedParams in *. cbn [app] in *.
      apply queryParams_append; [apply firstSeparator_isSeparator | exact Hp].
    + right; split; [reflexivity|]. now exists sg.
  - rewrite (buildRedirectURL_unsigned_run opts w Hs) in H.
    injection H as <- _ <-.
    exists (unsignedParams opts).
    pose proof (unsignedParams_plain opts) as Hp.
    repeat split; auto.
    unfold unsignedParams in *.
    apply queryParams_append; [apply firstSeparator_isSeparator | exact Hp].
Qed.

Lemma buildRedirectURL_signingInputs opts w :
  signingInputs (traceOf (buildRedirectURL opts w))
  = if BuildRedirectConfig.isSigned opts then [canonicalSigningInput opts] else [].
Proof.
  destruct (BuildRedirectConfig.isSigned opts) eqn:Hs.
  - now rewrite (buildRedirectURL_signed_run opts w Hs).
  - now rewrite (buildRedirectURL_unsigned_run opts w Hs).
Qed.

Lemma renderQuery_prefixed kv ps :
  renderQuery (kv :: ps)
  = renderParam kv ++ String.concat "" (map (fun p => "&" ++ renderParam p) ps).
Proof.
  revert kv; induction ps as [|p ps IH]; intros kv; rewrite renderQuery_cons.
  - cbn. now rewrite append_nil_r.
  - rewrite IH. cbn [map]. destruct ps as [|p' ps]; cbn.
    + now rewrite append_nil_r.
    + reflexivity.
Qed.

(** On a base URL that is parsed: the URL is the base URL, one separator,
    the message parameter, and every further parameter behind an [&]. The
    separator is [&] when the parse yields a query string of at least one
    character, and [?] when it yields none (or an empty one). *)
Lemma buildRedirectURL_separator (opts : BuildRedirectConfig.t) (w : World)
    (url : string) :
  resultOf (buildRedirectURL opts w) = Ok url ->
  let baseUrl := BuildRedirectConfig.baseUrl opts in
  exists value ps,
    let message := (getQueryParamByType (BuildRedirectConfig.type opts), value) in
    let appended :=
      renderParam message
      ++ String.concat "" (map (fun p => "&" ++ renderParam p) ps) in
    forallb plainParam (message :: ps) = true
    /\ queryParams url = (queryParams baseUrl ++ message :: ps)%list
    /\ (forall q, url_parse_query baseUrl = Some q -> 1 <= String.length q ->
        url = baseUrl ++ "&" ++ appended)
    /\ (url_parse_query baseUrl = None -> url = baseUrl ++ "?" ++ appended)
    /\ (url_parse_query baseUrl = Some "" -> url = baseUrl ++ "?" ++ appended).
Proof.
  intros H baseUrl.
  destruct (buildRedirectURL opts w) as [[r w'] t] eqn:Hrun.
  unfold resultOf in H; cbn in H; subst r.
  destruct (buildRedirectURL_Ok _ _ _ _ _ Hrun) as (ps & Hurl & Hplain & Hq & Hcase).
  fold baseUrl in Hurl, Hq.
  assert (Hps : exists value ps',
             ps = (getQueryParamByType (BuildRedirectConfig.type opts), value) :: ps').
  { destruct Hcase as [(_ & -> & _)|(_ & sg & -> & _)];
      unfold unsignedParams, signedParams; cbn [app]; eauto. }
  destruct Hps as (value & ps' & ->).
  exists value, ps'. cbv zeta. rewrite <- renderQuery_prefixed.
  repeat split; auto.
  - intros q Hparse Hlen. rewrite Hurl. unfold firstSeparator. rewrite Hparse.
    destruct (Nat.eqb_spec (String.length q) 0); [lia | reflexivity].
  - intros Hparse. rewrite Hurl. unfold firstSeparator. now rewrite Hparse.
  - intros Hparse. rewrite Hurl. unfold firstSeparator. now rewrite Hparse.
Qed.

(** C4, as the code has it. A base URL that [url.parse] refuses is not
    read as one without parameters: what the parse throws is thrown by the
    call, which hands nothing to the signer and returns no URL. A URL is
    returned only for a base URL that is parsed, and it is then the base
    URL, one separator, the message parameter, and every further parameter
    behind an [&]; the separator is [&] when the parse yields a query
    string of at least one character, and [?] when it yields none (or an
    empty one). *)
Theorem first_parameter_separator (opts : BuildRedirectConfig.t) (w : World) :
  let baseUrl := BuildRedirectConfig.baseUrl opts in
  (forall e, url_parse_throws baseUrl = Some e ->
     buildRedirectURL_parsing opts w = (Throw e, w, []))
  /\ (forall url, resultOf (buildRedirectURL_parsing opts w) = Ok url ->
      url_parse_throws baseUrl = None
      /\ exists value ps,
          let message := (getQueryParamByType (BuildRedirectConfig.type opts), value) in
          let appended :=
            renderParam message
            ++ String.concat "" (map (fun p => "&" ++ renderParam p) ps) in
          forallb plainParam (message :: ps) = true
          /\ queryParams url = (queryParams baseUrl ++ message :: ps)%list
          /\ (forall q, url_parse_query baseUrl = Some q -> 1 <= String.length q ->
              url = baseUrl ++ "&" ++ appended)
          /\ (url_parse_query baseUrl = None -> url = baseUrl ++ "?" ++ appended)
          /\ (url_parse_query baseUrl = Some "" -> url = baseUrl ++ "?" ++ appended)).
Proof.
  intros baseUrl. unfold buildRedirectURL_parsing. fold baseUrl. split.
  - intros e He. now rewrite He.
  - intros url H.
    destruct (url_parse_throws baseUrl) as [e|]; [discriminate H|].
    split; [reflexivity|].
    exact (buildRedirectURL_separator opts w url H).
Qed.

Lemma hasKey_app k (a b : list (string * string)) :
  hasKey k (a ++ b) = hasKey k a || hasKey k b.
Proof. unfold hasKey, keys. now rewrite map_app, existsb_app. Qed.

Lemma hasKey_relayStateParam_false relayState :
  relayState = None \/ relayState = Some "" ->
  relayStateParam relayState = [].
Proof. now intros [->| ->]. Qed.

(** C5, as the code has it. With RelayState absent or empty, the encoder
    emits no RelayState parameter, not even an empty one: the parameters of
    the URL are those of the base URL followed by the message parameter
    and, when signed, by SigAlg and Signature, so that the URL has a
    RelayState parameter only if the base URL brings one; and no string
    handed to the signer holds a RelayState segment. *)
Theorem relayState_omitted (opts : BuildRedirectConfig.t) (w : World) :
  BuildRedirectConfig.relayState opts = None
  \/ BuildRedirectConfig.relayState opts = Some "" ->
  let baseUrl := BuildRedirectConfig.baseUrl opts in
  (forall octets, In octets (signingInputs (traceOf (buildRedirectURL opts w))) ->
     hasKey "RelayState" (parseQuery octets) = false)
  /\ (forall url, resultOf (buildRedirectURL opts w) = Ok url ->
      exists ps,
        url = baseUrl ++ String (firstSeparator baseUrl) (renderQuery ps)
        /\ queryParams url = (queryParams baseUrl ++ ps)%list
        /\ keys ps
           = getQueryParamByType (BuildRedirectConfig.type opts)
             :: (if BuildRedirectConfig.isSigned opts
                 then ["SigAlg"; "Signature"] else [])
        /\ hasKey "RelayState" ps = false
        /\ (hasKey "RelayState" (queryParams baseUrl) = false ->
            hasKey "RelayState" (queryParams url) = false)).
Proof.
  intros Hr baseUrl. apply hasKey_relayStateParam_false in Hr. split.
  - intros octets Hin. rewrite buildRedirectURL_signingInputs in Hin.
    destruct (BuildRedirectConfig.isSigned opts); [|contradiction].
    destruct Hin as [<-|[]].
    rewrite parseQuery_canonicalSigningInput.
    unfold signedParams. rewrite Hr. cbn.
    now destruct (BuildRedirectConfig.type opts).
  - intros url H.
    destruct (buildRedirectURL opts w) as [[r w'] t] eqn:Hrun.
    unfold resultOf in H; cbn in H; subst r.
    destruct (buildRedirectURL_Ok _ _ _ _ _ Hrun) as (ps & Hurl & _ & Hq & Hcase).
    fold baseUrl in Hurl, Hq.
    exists ps.
    assert (Hk : keys ps
                 = getQueryParamByType (BuildRedirectConfig.type opts)
                   :: (if BuildRedirectConfig.isSigned opts
                       then ["SigAlg"; "Signature"] else [])).
    { destruct Hcase as [(-> & -> & _)|(-> & sg & -> & _)];
        unfold unsignedParams, signedParams; now rewrite Hr. }
    assert (Hno : hasKey "RelayState" ps = false).
    { unfold hasKey. rewrite Hk.
      now destruct (BuildRedirectConfig.type opts),
        (BuildRedirectConfig.isSigned opts). }
    repeat split; auto.
    intros Hbase. now rewrite Hq, hasKey_app, Hbase, Hno.
Qed.

Section Decoding.

(** utility.inflateString, the inflater of the library that provides
    [deflateString]; its correctness is the library's. *)
Variable inflateString : list ascii -> option string.
Hypothesis inflate_deflate : forall x, inflateString (deflateString x) = Some x.


End Decoding.

(* ---------------------------------------------------------------- *)
(** ** Runs of the builders *)

Lemma signingInputs_app t1 t2 :
  signingInputs (t1 ++ t2) = (signingInputs t1 ++ signingInputs t2)%list.
Proof.
  induction t1 as [|ev t1 IH]; [reflexivity|].
  destruct ev; cbn; now rewrite IH.
Qed.

Lemma substitutions_app t1 t2 :
  substitutions (t1 ++ t2) = (substitutions t1 ++ substitutions t2)%list.
Proof.
  induction t1 as [|ev t1 IH]; [reflexivity|].
  destruct ev; cbn; now rewrite IH.
Qed.

Lemma bind_Ok {A B} (m : M A) (f : A -> M B) w b w' t :
  bind m f w = (Ok b, w', t) ->
  exists a w1 t1 t2,
    m w = (Ok a, w1, t1) /\ f a w1 = (Ok b, w', t2) /\ t = (t1 ++ t2)%list.
Proof.
  unfold bind. destruct (m w) as [[[a|e] w1] t1]; [|discriminate].
  destruct (f a w1) as [[r w2] t2] eqn:Hf. intros [= -> -> <-].
  now exists a, w1, t1, t2.
Qed.

Lemma traceOf_bind {A B} (m : M A) (f : A -> M B) w :
  traceOf (bind m f w)
  = match m w with
    | (Ok a, w1, t1) => (t1 ++ traceOf (f a w1))%list
    | (Throw _, _, t1) => t1
    end.
Proof.
  unfold bind, traceOf. destruct (m w) as [[[a|e] w1] t1]; [|reflexivity].
  now destruct (f a w1) as [[r w2] t2].
Qed.

(** The last step of every builder. *)
Lemma finish_Ok opts i w mc w' t :
  (url <- buildRedirectURL opts ;; ret {| id := i; context := url |}) w
  = (Ok mc, w', t) ->
  id mc = i /\ buildRedirectURL opts w = (Ok (context mc), w', t).
Proof.
  intros H. apply bind_Ok in H as (url & w1 & t1 & t2 & H1 & H2 & ->).
  unfold ret in H2. injection H2 as <- <- <-. cbn. now rewrite app_nil_r.
Qed.

(** The template supplied by the caller: the callback's answer is taken
    as it is. *)
Lemma customTags_Ok c template w info w1 t1 :
  callCustomTagReplacement c template w = (Ok info, w1, t1) ->
  w1 = w /\ signingInputs t1 = [] /\ substitutions t1 = [].
Proof.
  unfold callCustomTagReplacement, throw. destruct c as [f|]; [|discriminate].
  intros [= _ <- <-]. auto.
Qed.

Lemma customTags_signingInputs c template w :
  signingInputs (traceOf (callCustomTagReplacement c template w)) = [].
Proof. unfold callCustomTagReplacement, throw. now destruct c. Qed.

(** The default template: one fresh identifier, one substitution. *)
Lemma defaultTemplate_Ok setting template (tvalue : string -> string -> TagValues)
    w x w1 t1 :
  (i <- callGenerateID setting ;;
   now <- toISOString ;;
   raw <- callReplaceTags template (tvalue i now) ;;
   ret (i, raw)) w = (Ok x, w1, t1) ->
  generateID setting w = (fst x, w1)
  /\ snd x = replaceTagsByValue libsaml template (tvalue (fst x) (clock w1))
  /\ t1 = [GenerateID (fst x); ReplaceTags template (tvalue (fst x) (clock w1))].
Proof.
  unfold bind, callGenerateID, toISOString, callReplaceTags, ret.
  destruct (generateID setting w) as [i w2]. cbn.
  intros [= <- <- <-]. auto.
Qed.

(** A successful login request: both metadata views are there, the raw
    document comes from the callback or from the default template, and
    the URL is the encoder's, called without RelayState. *)
Lemma loginRequest_Ok entity c w mc w' t :
  loginRequestRedirectURL entity c w = (Ok mc, w', t) ->
  exists metadata_idp metadata_sp raw w1 t1 t2,
    entityMeta (idp entity) = Some metadata_idp
    /\ entityMeta (sp entity) = Some metadata_sp
    /\ buildRedirectURL
         (BuildRedirectConfig.mk
            (getSingleSignOnService metadata_idp (binding_redirect urn))
            urlParams.samlRequest (isAuthnRequestSigned metadata_sp) raw
            (entitySetting (sp entity)) None) w1
       = (Ok (context mc), w', t2)
    /\ t = (t1 ++ t2)%list
    /\ signingInputs t1 = []
    /\ (truthy (loginRequestTemplate (entitySetting (sp entity))) = false ->
        generateID (entitySetting (sp entity)) w = (id mc, w1)
        /\ exists tvalue,
            t1 = [GenerateID (id mc);
                  ReplaceTags (defaultLoginRequestTemplate libsaml) tvalue]
            /\ lookupTag "ID" tvalue = Some (JString (id mc))
            /\ raw = replaceTagsByValue libsaml
                       (defaultLoginRequestTemplate libsaml) tvalue).
Proof.
  unfold loginRequestRedirectURL. intros H.
  destruct (entityMeta (idp entity)) as [mi|]; [|discriminate].
  destruct (entityMeta (sp entity)) as [ms|]; [|discriminate].
  apply bind_Ok in H as ([i raw] & w1 & t1 & t2 & H1 & H2 & ->).
  apply finish_Ok in H2 as [Hid H2]. subst i.
  exists mi, ms, raw, w1, t1, t2. repeat split; auto.
  - destruct (truthy _).
    + apply bind_Ok in H1 as (info & w2 & t3 & t4 & H3 & H4 & ->).
      apply customTags_Ok in H3 as (_ & Hs & _).
      unfold ret in H4. injection H4 as _ _ _ <-.
      now rewrite signingInputs_app, Hs.
    + apply defaultTemplate_Ok in H1 as (_ & _ & ->). reflexivity.
  - destruct (truthy _); [discriminate|].
    now apply defaultTemplate_Ok in H1 as (Hg & _ & _).
  - destruct (truthy _); [discriminate|].
    apply defaultTemplate_Ok in H1 as (_ & Hraw & Ht). cbn [fst snd] in *.
    eexists; repeat split; [exact Ht | reflexivity | exact Hraw].
Qed.

Lemma logoutRequest_Ok user entity relayState c w mc w' t :
  logoutRequestRedirectURL user entity relayState c w = (Ok mc, w', t) ->
  exists metadata_init metadata_target raw w1 t1 t2,
    entityMeta (init entity) = Some metadata_init
    /\ entityMeta (target entity) = Some metadata_target
    /\ buildRedirectURL
         (BuildRedirectConfig.mk
            (getSingleLogoutService metadata_target (binding_redirect urn))
            urlParams.logoutRequest
            (wantLogoutRequestSigned (entitySetting (target entity))) raw
            (entitySetting (init entity)) relayState) w1
       = (Ok (context mc), w', t2)
    /\ t = (t1 ++ t2)%list
    /\ signingInputs t1 = []
    /\ (truthy (logoutRequestTemplate (entitySetting (init entity))) = false ->
        generateID (entitySetting (init entity)) w = (id mc, w1)
        /\ exists tvalue,
            t1 = [GenerateID (id mc);
                  ReplaceTags (defaultLogoutRequestTemplate libsaml) tvalue]
            /\ lookupTag "ID" tvalue = Some (JString (id mc))
            /\ raw = replaceTagsByValue libsaml
                       (defaultLogoutRequestTemplate libsaml) tvalue).
Proof.
  unfold logoutRequestRedirectURL. intros H.
  destruct (entityMeta (init entity)) as [mi|]; [|discriminate].
  destruct (entityMeta (target entity)) as [mt|]; [|discriminate].
  apply bind_Ok in H as ([i raw] & w1 & t1 & t2 & H1 & H2 & ->).
  apply finish_Ok in H2 as [Hid H2]. subst i.
  exists mi, mt, raw, w1, t1, t2. repeat split; auto.
  - destruct (truthy _).
    + apply bind_Ok in H1 as (info & w2 & t3 & t4 & H3 & H4 & ->).
      apply customTags_Ok in H3 as (_ & Hs & _).
      unfold ret in H4. injection H4 as _ _ _ <-.
      now rewrite signingInputs_app, Hs.
    + apply defaultTemplate_Ok in H1 as (_ & _ & ->). reflexivity.
  - destruct (truthy _); [discriminate|].
    now apply defaultTemplate_Ok in H1 as (Hg & _ & _).
  - destruct (truthy _); [discriminate|].
    apply defaultTemplate_Ok in H1 as (_ & Hraw & Ht). cbn [fst snd] in *.
    eexists; repeat split; [exact Ht | reflexivity | exact Hraw].
Qed.

Lemma lookupTag_ID_logoutResponse i base issuer now requestInfo :
  lookupTag "ID" (logoutResponseTagValues i base issuer now requestInfo)
  = Some (JString i).
Proof.
  unfold logoutResponseTagValues.
  destruct requestInfo as [[[[[[r]|]]|]]|]; reflexivity.
Qed.

Lemma logoutResponse_Ok requestInfo entity relayState c w mc w' t :
  logoutResponseRedirectURL requestInfo entity relayState c w = (Ok mc, w', t) ->
  exists metadata_init metadata_target raw w1 t1 t2,
    entityMeta (init entity) = Some metadata_init
    /\ entityMeta (target entity) = Some metadata_target
    /\ buildRedirectURL
         (BuildRedirectConfig.mk
            (getSingleLogoutService metadata_target (binding_redirect urn))
            urlParams.logoutResponse
            (wantLogoutResponseSigned (entitySetting (target entity))) raw
            (entitySetting (init entity)) relayState) w1
       = (Ok (context mc), w', t2)
    /\ t = (t1 ++ t2)%list
    /\ signingInputs t1 = []
    /\ (truthy (logoutResponseTemplate (entitySetting (init entity))) = false ->
        generateID (entitySetting (init entity)) w = (id mc, w1)
        /\ exists tvalue,
            tvalue = logoutResponseTagValues (id mc)
                       (getSingleLogoutService metadata_target (binding_redirect urn))
                       (getEntityID metadata_init) (clock w1) requestInfo
            /\ t1 = [GenerateID (id mc);
                     ReplaceTags (defaultLogoutResponseTemplate libsaml) tvalue]
            /\ lookupTag "ID" tvalue = Some (JString (id mc))
            /\ raw = replaceTagsByValue libsaml
                       (defaultLogoutResponseTemplate libsaml) tvalue).
Proof.
  unfold logoutResponseRedirectURL. intros H.
  destruct (entityMeta (init entity)) as [mi|]; [|discriminate].
  destruct (entityMeta (target entity)) as [mt|]; [|discriminate].
  apply bind_Ok in H as ([i raw] & w1 & t1 & t2 & H1 & H2 & ->).
  apply finish_Ok in H2 as [Hid H2]. subst i.
  exists mi, mt, raw, w1, t1, t2. repeat split; auto.
  - destruct (truthy _).
    + apply bind_Ok in H1 as (info & w2 & t3 & t4 & H3 & H4 & ->).
      apply customTags_Ok in H3 as (_ & Hs & _).
      unfold ret in H4. injection H4 as _ _ _ <-.
      now rewrite signingInputs_app, Hs.
    + apply (defaultTemplate_Ok _ _
               (fun i now => logoutResponseTagValues i _ _ now requestInfo))
        in H1 as (_ & _ & ->). reflexivity.
  - destruct (truthy _); [discriminate|].
    now apply (defaultTemplate_Ok _ _
                 (fun i now => logoutResponseTagValues i _ _ now requestInfo))
      in H1 as (Hg & _ & _).
  - destruct (truthy _); [discriminate|].
    apply (defaultTemplate_Ok _ _
             (fun i now => logoutResponseTagValues i _ _ now requestInfo))
      in H1 as (_ & Hraw & Ht). cbn [fst snd] in *.
    eexists; repeat split;
      [exact Ht | apply lookupTag_ID_logoutResponse | exact Hraw].
Qed.

(* ---------------------------------------------------------------- *)
(** ** The builders *)

(** C7. A builder that finds a metadata view missing throws
    [Error('Missing declaration of metadata')]: nothing is returned, no
    collaborator has been called and the world is as it was. *)
Theorem missing_metadata_fails :
  (forall entity c w,
      entityMeta (idp entity) = None \/ entityMeta (sp entity) = None ->
      loginRequestRedirectURL entity c w
      = (Throw (Error "Missing declaration of metadata"), w, []))
  /\ (forall user entity relayState c w,
        entityMeta (init entity) = None \/ entityMeta (target entity) = None ->
        logoutRequestRedirectURL user entity relayState c w
        = (Throw (Error "Missing declaration of metadata"), w, []))
  /\ (forall requestInfo entity relayState c w,
        entityMeta (init entity) = None \/ entityMeta (target entity) = None ->
        logoutResponseRedirectURL requestInfo entity relayState c w
        = (Throw (Error "Missing declaration of metadata"), w, [])).
Proof.
  repeat split.
  - intros entity c w [H|H]; unfold loginRequestRedirectURL; rewrite H;
      [|destruct (entityMeta (idp entity))]; reflexivity.
  - intros user entity relayState c w [H|H]; unfold logoutRequestRedirectURL;
      rewrite H; [|destruct (entityMeta (init entity))]; reflexivity.
  - intros requestInfo entity relayState c w [H|H];
      unfold logoutResponseRedirectURL; rewrite H;
      [|destruct (entityMeta (init entity))]; reflexivity.
Qed.

Lemma buildRedirectURL_substitutions opts w :
  substitutions (traceOf (buildRedirectURL opts w)) = [].
Proof.
  destruct (BuildRedirectConfig.isSigned opts) eqn:Hs.
  - now rewrite (buildRedirectURL_signed_run opts w Hs).
  - now rewrite (buildRedirectURL_unsigned_run opts w Hs).
Qed.

(** The message parameter carries the encoded raw document. *)
Lemma buildRedirectURL_message opts w url w' t :
  buildRedirectURL opts w = (Ok url, w', t) ->
  exists rest,
    queryParams url
    = (queryParams (BuildRedirectConfig.baseUrl opts)
       ++ (getQueryParamByType (BuildRedirectConfig.type opts),
           encodedPayload (BuildRedirectConfig.context opts)) :: rest)%list.
Proof.
  intros H.
  destruct (buildRedirectURL_Ok _ _ _ _ _ H) as (ps & _ & _ & Hq & Hcase).
  rewrite Hq.
  destruct Hcase as [(_ & -> & _)|(_ & sg & -> & _)];
    unfold unsignedParams, signedParams; cbn [app]; eauto.
Qed.

Ltac run_of H r w' t Hrun :=
  match type of H with
  | resultOf ?run = Ok _ =>
      destruct run as [[r w'] t] eqn:Hrun;
      unfold resultOf in H; cbn [fst] in H; subst r
  end.


Lemma logoutResponseTagValues_known i base issuer now requestInfo request :
  extractedRequest requestInfo = Some request ->
  logoutResponseTagValues i base issuer now requestInfo
  = [ ("ID", JString i); ("Destination", JString base);
      ("Issuer", JString issuer); ("EntityID", JString issuer);
      ("IssueInstant", JString now);
      ("StatusCode", JString (namespace_statusCode_success urn));
      ("InResponseTo", jsOfOption (requestId request)) ].
Proof.
  unfold extractedRequest, logoutResponseTagValues.
  destruct requestInfo as [[[[[[r]|]]|]]|]; cbn; intros [=]; subst; reflexivity.
Qed.

Lemma logoutResponseTagValues_unknown i base issuer now requestInfo :
  extractedRequest requestInfo = None ->
  logoutResponseTagValues i base issuer now requestInfo
  = [ ("ID", JString i); ("Destination", JString base);
      ("Issuer", JString issuer); ("EntityID", JString issuer);
      ("IssueInstant", JString now);
      ("StatusCode", JString (namespace_statusCode_success urn)) ].
Proof.
  unfold extractedRequest, logoutResponseTagValues.
  destruct requestInfo as [[[[[[r]|]]|]]|]; cbn; intros [=]; reflexivity.
Qed.

(** C8, as the code has it. On the default template path of the logout
    response, one placeholder map is handed to the template substitution.
    When the request info carries an extracted logout request whose
    identifier is [i], the map gives [InResponseTo] the value [i]; when
    the request info, its extract or the extracted logout request is
    missing, the map has no [InResponseTo] entry at all. *)
Theorem logoutResponse_inResponseTo (requestInfo : option RequestInfo)
    (entity : LogoutEntity) (relayState : option string)
    (c : option (string -> Result BindingContext)) (w : World)
    (mc : BindingContext) :
  truthy (logoutResponseTemplate (entitySetting (init entity))) = false ->
  resultOf (logoutResponseRedirectURL requestInfo entity relayState c w) = Ok mc ->
  exists tvalue,
    substitutions
      (traceOf (logoutResponseRedirectURL requestInfo entity relayState c w))
    = [tvalue]
    /\ (forall request i,
           extractedRequest requestInfo = Some request ->
           requestId request = Some i ->
           lookupTag "InResponseTo" tvalue = Some (JString i))
    /\ (extractedRequest requestInfo = None ->
        hasTag "InResponseTo" tvalue = false
        /\ lookupTag "InResponseTo" tvalue = None).
Proof.
  intros Ht H. run_of H r w' t Hrun.
  destruct (logoutResponse_Ok _ _ _ _ _ _ _ _ Hrun)
    as (mi & mt & raw & w1 & t1 & t2 & _ & _ & Hb & -> & _ & Hd).
  destruct (Hd Ht) as (_ & tv & Htv & -> & _ & ->).
  exists tv. unfold traceOf; cbn [snd]. rewrite substitutions_app.
  pose proof (buildRedirectURL_substitutions
                (BuildRedirectConfig.mk
                   (getSingleLogoutService mt (binding_redirect urn))
                   urlParams.logoutResponse
                   (wantLogoutResponseSigned (entitySetting (target entity)))
                   (replaceTagsByValue libsaml
                      (defaultLogoutResponseTemplate libsaml) tv)
                   (entitySetting (init entity)) relayState) w1) as Hsub.
  rewrite Hb in Hsub. unfold traceOf in Hsub; cbn [snd] in Hsub.
  rewrite Hsub. repeat split.
  - intros request i Hreq Hi.
    rewrite Htv, (logoutResponseTagValues_known _ _ _ _ _ _ Hreq), Hi.
    reflexivity.
  - rewrite Htv, (logoutResponseTagValues_unknown _ _ _ _ _ H). reflexivity.
  - rewrite Htv, (logoutResponseTagValues_unknown _ _ _ _ _ H). reflexivity.
Qed.

(** C2, as the code has it. In the URL of a logout request built with a
    non-empty RelayState, the parameters that follow those of the base URL
    are, unsigned: the request, then RelayState; signed: the request, then
    SigAlg, then RelayState, then Signature. *)
Theorem logoutRequest_relayState_position (user : User) (entity : LogoutEntity)
    (relayState : string) (c : option (string -> Result BindingContext))
    (w : World) (mc : BindingContext) :
  relayState <> "" ->
  resultOf (logoutRequestRedirectURL user entity (Some relayState) c w) = Ok mc ->
  exists metadata_target payload,
    entityMeta (target entity) = Some metadata_target
    /\ let base := getSingleLogoutService metadata_target (binding_redirect urn) in
       if wantLogoutRequestSigned (entitySetting (target entity)) then
         exists signature,
           queryParams (context mc)
           = (queryParams base
              ++ [ ("SAMLRequest", payload);
                   ("SigAlg",
                    encodeURIComponent
                      (requestSignatureAlgorithm (entitySetting (init entity))));
                   ("RelayState", encodeURIComponent relayState);
                   ("Signature", encodeURIComponent signature) ])%list
       else
         queryParams (context mc)
         = (queryParams base
            ++ [ ("SAMLRequest", payload);
                 ("RelayState", encodeURIComponent relayState) ])%list.
Proof.
  intros Hr H. run_of H r w' t Hrun.
  destruct (logoutRequest_Ok _ _ _ _ _ _ _ _ Hrun)
    as (mi & mt & raw & w1 & t1 & t2 & _ & Hmt & Hb & _).
  exists mt, (encodedPayload raw). split; [exact Hmt|]. cbv zeta.
  destruct (buildRedirectURL_Ok _ _ _ _ _ Hb) as (ps & _ & _ & Hq & Hcase).
  cbn [BuildRedirectConfig.baseUrl BuildRedirectConfig.isSigned] in Hq, Hcase.
  rewrite Hq.
  apply String.eqb_neq in Hr.
  destruct Hcase as [(-> & -> & _)|(-> & sg & -> & _)].
  - unfold unsignedParams, relayStateParam; cbn. now rewrite Hr.
  - exists sg. unfold signedParams, relayStateParam; cbn. now rewrite Hr.
Qed.

(** The keys of the emitted parameters. *)
Lemma emitted_keys opts ps t :
  (BuildRedirectConfig.isSigned opts = false /\ ps = unsignedParams opts /\ t = [])
  \/ (BuildRedirectConfig.isSigned opts = true
      /\ exists signature,
          ps = (signedParams opts ++ [("Signature", encodeURIComponent signature)])%list
          /\ t = [Sign (canonicalSigningInput opts)
                    (privateKey (BuildRedirectConfig.entitySetting opts))
                    (privateKeyPass (BuildRedirectConfig.entitySetting opts))
                    (requestSignatureAlgorithm
                       (BuildRedirectConfig.entitySetting opts))]) ->
  keys ps
  = (getQueryParamByType (BuildRedirectConfig.type opts)
     :: (if BuildRedirectConfig.isSigned opts then ["SigAlg"] else [])
     ++ keys (relayStateParam (BuildRedirectConfig.relayState opts))
     ++ (if BuildRedirectConfig.isSigned opts then ["Signature"] else []))%list
  /\ signingInputs t
     = if BuildRedirectConfig.isSigned opts then [canonicalSigningInput opts] else [].
Proof.
  intros [(-> & -> & ->)|(-> & sg & -> & ->)]; split; try reflexivity.
  - unfold unsignedParams; cbn. now rewrite app_nil_r.
  - unfold signedParams, keys. now rewrite !map_app.
Qed.

(** C6, as the code has it. A login request is signed exactly when the
    service provider's [isAuthnRequestSigned()] holds: then, and only
    then, the signer has been called and the parameters added to the
    identity provider's endpoint include SigAlg and Signature, which the
    URL therefore contains. The URL of an unsigned request has a SigAlg or
    a Signature parameter only if the endpoint itself brings it. *)
Theorem login_signed_iff (entity : LoginEntity)
    (c : option (string -> Result BindingContext)) (w : World)
    (mc : BindingContext) :
  resultOf (loginRequestRedirectURL entity c w) = Ok mc ->
  exists metadata_idp metadata_sp ps,
    entityMeta (idp entity) = Some metadata_idp
    /\ entityMeta (sp entity) = Some metadata_sp
    /\ let base := getSingleSignOnService metadata_idp (binding_redirect urn) in
       context mc = base ++ String (firstSeparator base) (renderQuery ps)
       /\ queryParams (context mc) = (queryParams base ++ ps)%list
       /\ (hasKey "SigAlg" ps = true /\ hasKey "Signature" ps = true
           <-> isAuthnRequestSigned metadata_sp = true)
       /\ (signingInputs (traceOf (loginRequestRedirectURL entity c w)) <> []
           <-> isAuthnRequestSigned metadata_sp = true)
       /\ (isAuthnRequestSigned metadata_sp = true ->
           hasKey "SigAlg" (queryParams (context mc)) = true
           /\ hasKey "Signature" (queryParams (context mc)) = true)
       /\ (isAuthnRequestSigned metadata_sp = false ->
           forall k, k = "SigAlg" \/ k = "Signature" ->
             hasKey k ps = false
             /\ hasKey k (queryParams (context mc)) = hasKey k (queryParams base)).
Proof.
  intros H. run_of H r w' t Hrun.
  destruct (loginRequest_Ok _ _ _ _ _ _ Hrun)
    as (mi & ms & raw & w1 & t1 & t2 & Hmi & Hms & Hb & -> & Hs1 & _).
  destruct (buildRedirectURL_Ok _ _ _ _ _ Hb) as (ps & Hurl & _ & Hq & Hcase).
  destruct (emitted_keys _ _ _ Hcase) as (Hk & Hs2).
  cbn [BuildRedirectConfig.baseUrl BuildRedirectConfig.isSigned
       BuildRedirectConfig.type BuildRedirectConfig.relayState] in *.
  exists mi, ms, ps. repeat apply conj; auto.
  - intros [H1 _]. unfold hasKey in H1. rewrite Hk in H1.
    now destruct (isAuthnRequestSigned ms).
  - intros Hsig. unfold hasKey. rewrite Hk, Hsig. now split.
  - unfold traceOf; cbn [snd]. rewrite signingInputs_app, Hs1, Hs2.
    now destruct (isAuthnRequestSigned ms).
  - intros Hsig. unfold traceOf; cbn [snd].
    rewrite signingInputs_app, Hs1, Hs2, Hsig. discriminate.
  - intros Hsig. rewrite Hq, !hasKey_app.
    assert (Hps : hasKey "SigAlg" ps = true /\ hasKey "Signature" ps = true)
      by (unfold hasKey; rewrite Hk, Hsig; now split).
    destruct Hps as [-> ->]. now rewrite !orb_true_r.
  - intros Hsig k Hor.
    assert (Hps : hasKey k ps = false)
      by (unfold hasKey; rewrite Hk, Hsig; destruct Hor as [-> | ->]; reflexivity).
    split; [exact Hps|]. now rewrite Hq, hasKey_app, Hps, orb_false_r.
Qed.

Lemma finish_signingInputs opts i w :
  signingInputs
    (traceOf ((url <- buildRedirectURL opts ;; ret {| id := i; context := url |}) w))
  = if BuildRedirectConfig.isSigned opts then [canonicalSigningInput opts] else [].
Proof.
  rewrite traceOf_bind, <- buildRedirectURL_signingInputs with (w := w).
  destruct (buildRedirectURL opts w) as [[[url|e] w1] t1]; [|reflexivity].
  unfold traceOf, ret; cbn. now rewrite app_nil_r.
Qed.

Lemma customTemplate_signingInputs c template w :
  signingInputs
    (traceOf ((info <- callCustomTagReplacement c template ;;
               ret (id info, context info)) w)) = [].
Proof.
  rewrite traceOf_bind.
  pose proof (customTags_signingInputs c template w) as H.
  destruct (callCustomTagReplacement c template w) as [[[info|e] w1] t1];
    unfold traceOf in *; cbn in *; [|exact H].
  now rewrite app_nil_r.
Qed.

Lemma defaultTemplate_signingInputs setting template
    (tvalue : string -> string -> TagValues) w :
  signingInputs
    (traceOf ((i <- callGenerateID setting ;;
               now <- toISOString ;;
               raw <- callReplaceTags template (tvalue i now) ;;
               ret (i, raw)) w)) = [].
Proof.
  unfold bind, callGenerateID, toISOString, callReplaceTags, ret, traceOf.
  now destruct (generateID setting w).
Qed.

(** Whatever the outcome, the login builder hands the signer nothing but
    the canonical input of a request without RelayState. *)
Lemma loginRequest_signingInputs entity c w octets :
  In octets (signingInputs (traceOf (loginRequestRedirectURL entity c w))) ->
  exists opts,
    BuildRedirectConfig.relayState opts = None
    /\ octets = canonicalSigningInput opts.
Proof.
  unfold loginRequestRedirectURL.
  destruct (entityMeta (idp entity)) as [mi|]; [|intros []].
  destruct (entityMeta (sp entity)) as [ms|]; [|intros []].
  rewrite traceOf_bind.
  match goal with
  | |- context [match ?m w with _ => _ end] =>
      assert (Hp : signingInputs (traceOf (m w)) = [])
        by (destruct (truthy _);
            [apply customTemplate_signingInputs
            |apply defaultTemplate_signingInputs]);
      destruct (m w) as [[[[i raw]|e] w1] t1]
  end; unfold traceOf in Hp; cbn [snd] in Hp.
  - rewrite signingInputs_app, Hp, finish_signingInputs. cbn [app].
    destruct (BuildRedirectConfig.isSigned _); [|intros []].
    intros [<-|[]]. eexists; split; [|reflexivity]. reflexivity.
  - rewrite Hp. intros [].
Qed.

(** C10, as the code has it. A login request never carries a RelayState
    of the builder's making: nothing handed to the signer holds a
    RelayState segment, and the parameters of the URL are those of the
    identity provider's endpoint followed by SAMLRequest and, when signed,
    SigAlg and Signature, so that the URL has a RelayState parameter only
    if the endpoint brings one. *)
Theorem login_without_relayState (entity : LoginEntity)
    (c : option (string -> Result BindingContext)) (w : World) :
  (forall octets,
      In octets (signingInputs (traceOf (loginRequestRedirectURL entity c w))) ->
      hasKey "RelayState" (parseQuery octets) = false)
  /\ (forall mc,
        resultOf (loginRequestRedirectURL entity c w) = Ok mc ->
        exists metadata_idp metadata_sp ps,
          entityMeta (idp entity) = Some metadata_idp
          /\ entityMeta (sp entity) = Some metadata_sp
          /\ let base := getSingleSignOnService metadata_idp (binding_redirect urn) in
             context mc = base ++ String (firstSeparator base) (renderQuery ps)
             /\ queryParams (context mc) = (queryParams base ++ ps)%list
             /\ keys ps
                = "SAMLRequest"
                  :: (if isAuthnRequestSigned metadata_sp
                      then ["SigAlg"; "Signature"] else [])
             /\ hasKey "RelayState" ps = false
             /\ (hasKey "RelayState" (queryParams base) = false ->
                 hasKey "RelayState" (queryParams (context mc)) = false)).
Proof.
  split.
  - intros octets Hin.
    destruct (loginRequest_signingInputs _ _ _ _ Hin) as (opts & Hr & ->).
    rewrite parseQuery_canonicalSigningInput. unfold signedParams.
    rewrite Hr. cbn. now destruct (BuildRedirectConfig.type opts).
  - intros mc H. run_of H r w' t Hrun.
    destruct (loginRequest_Ok _ _ _ _ _ _ Hrun)
      as (mi & ms & raw & w1 & t1 & t2 & Hmi & Hms & Hb & _).
    destruct (buildRedirectURL_Ok _ _ _ _ _ Hb) as (ps & Hurl & _ & Hq & Hcase).
    destruct (emitted_keys _ _ _ Hcase) as (Hk & _).
    cbn [BuildRedirectConfig.baseUrl BuildRedirectConfig.isSigned
         BuildRedirectConfig.type BuildRedirectConfig.relayState] in *.
    assert (Hk' : keys ps
                  = "SAMLRequest"
                    :: (if isAuthnRequestSigned ms
                        then ["SigAlg"; "Signature"] else []))
      by (rewrite Hk; now destruct (isAuthnRequestSigned ms)).
    assert (Hno : hasKey "RelayState" ps = false)
      by (unfold hasKey; rewrite Hk'; now destruct (isAuthnRequestSigned ms)).
    exists mi, ms, ps. repeat split; auto.
    intros Hbase. now rewrite Hq, hasKey_app, Hbase, Hno.
Qed.

(* ---------------------------------------------------------------- *)
(** ** More on the encoder and the builders *)

(** The last step of every builder, whatever its outcome. *)
Lemma finish_run opts i w :
  (url <- buildRedirectURL opts ;; ret {| id := i; context := url |}) w
  = match buildRedirectURL opts w with
    | (Ok url, w', t) => (Ok {| id := i; context := url |}, w', t)
    | (Throw e, w', t) => (Throw e, w', t)
    end.
Proof.
  unfold bind, ret.
  destruct (buildRedirectURL opts w) as [[[url|e] w'] t]; [|reflexivity].
  now rewrite app_nil_r.
Qed.

(** The encoder leaves the world alone and substitutes nothing. *)
Lemma buildRedirectURL_frame opts w r w' t :
  buildRedirectURL opts w = (r, w', t) -> w' = w /\ substitutions t = [].
Proof.
  destruct (BuildRedirectConfig.isSigned opts) eqn:Hs.
  - rewrite (buildRedirectURL_signed_run opts w Hs). cbv zeta.
    intros [= _ <- <-]. now split.
  - rewrite (buildRedirectURL_unsigned_run opts w Hs).
    intros [= _ <- <-]. now split.
Qed.

(** A successful signed call: the signer has answered. *)
Lemma buildRedirectURL_signed_Ok opts w url w' t :
  BuildRedirectConfig.isSigned opts = true ->
  buildRedirectURL opts w = (Ok url, w', t) ->
  let setting := BuildRedirectConfig.entitySetting opts in
  exists signature,
    constructMessageSignature libsaml (canonicalSigningInput opts)
      (privateKey setting) (privateKeyPass setting) None
      (requestSignatureAlgorithm setting) = Ok signature
    /\ t = [Sign (canonicalSigningInput opts) (privateKey setting)
              (privateKeyPass setting) (requestSignatureAlgorithm setting)]
    /\ w' = w
    /\ queryParams url
       = (queryParams (BuildRedirectConfig.baseUrl opts)
          ++ signedParams opts ++ [("Signature", encodeURIComponent signature)])%list.
Proof.
  intros Hs H setting. subst setting.
  rewrite (buildRedirectURL_signed_run opts w Hs) in H. cbv zeta in H.
  destruct (constructMessageSignature libsaml _ _ _ _ _) as [sg|e] eqn:Hsg;
    [|discriminate].
  injection H as <- <- <-. exists sg. repeat split; auto.
  pose proof (signedParams_plain opts sg) as Hp.
  unfold signedParams in *. cbn [app] in *.
  apply queryParams_append; [apply firstSeparator_isSeparator | exact Hp].
Qed.

(** The parameters a successful call has added, in order. *)
Lemma buildRedirectURL_params opts w url w' t :
  buildRedirectURL opts w = (Ok url, w', t) ->
  let setting := BuildRedirectConfig.entitySetting opts in
  exists tail,
    queryParams url
    = (queryParams (BuildRedirectConfig.baseUrl opts)
       ++ (getQueryParamByType (BuildRedirectConfig.type opts),
           encodedPayload (BuildRedirectConfig.context opts))
          :: (if BuildRedirectConfig.isSigned opts
              then [("SigAlg", encodeURIComponent (requestSignatureAlgorithm setting))]
              else [])
          ++ relayStateParam (BuildRedirectConfig.relayState opts)
          ++ tail)%list
    /\ (if BuildRedirectConfig.isSigned opts
        then exists signature,
            tail = [("Signature", encodeURIComponent signature)]
            /\ constructMessageSignature libsaml (canonicalSigningInput opts)
                 (privateKey setting) (privateKeyPass setting) None
                 (requestSignatureAlgorithm setting) = Ok signature
        else tail = []).
Proof.
  intros H setting. subst setting.
  destruct (BuildRedirectConfig.isSigned opts) eqn:Hs.
  - destruct (buildRedirectURL_signed_Ok _ _ _ _ _ Hs H) as (sg & Hsg & _ & _ & Hq).
    exists [("Signature", encodeURIComponent sg)]. split; [exact Hq|].
    now exists sg.
  - rewrite (buildRedirectURL_unsigned_run opts w Hs) in H. injection H as <- _ _.
    exists []. split; [|reflexivity]. cbn [app]. rewrite app_nil_r.
    apply queryParams_append;
      [apply firstSeparator_isSeparator | apply unsignedParams_plain].
Qed.

Lemma hasKey_emitted opts ps k :
  keys ps
  = (getQueryParamByType (BuildRedirectConfig.type opts)
     :: (if BuildRedirectConfig.isSigned opts then ["SigAlg"] else [])
     ++ keys (relayStateParam (BuildRedirectConfig.relayState opts))
     ++ (if BuildRedirectConfig.isSigned opts then ["Signature"] else []))%list ->
  k = "SigAlg" \/ k = "Signature" ->
  hasKey k ps = BuildRedirectConfig.isSigned opts.
Proof.
  intros Hk Hor. unfold hasKey. rewrite Hk. unfold relayStateParam.
  destruct (BuildRedirectConfig.type opts),
    (BuildRedirectConfig.isSigned opts),
    (BuildRedirectConfig.relayState opts) as [r|];
    try destruct (String.eqb r ""); destruct Hor as [-> | ->]; reflexivity.
Qed.

Lemma truthy_Some tpl : truthy (Some tpl) = true <-> tpl <> "".
Proof.
  unfold truthy. destruct (String.eqb_spec tpl ""); cbn; split; congruence.
Qed.

(** The caller's template path, step by step: the callback is missing, or
    it throws, or its answer is encoded. *)
Lemma custom_prelude_run {B} c tpl (k : string * string -> M B) w :
  bind (info <- callCustomTagReplacement c (Some tpl) ;; ret (id info, context info))
    k w
  = match c with
    | None => (Throw (TypeError "customTagReplacement is not a function"), w, [])
    | Some f =>
        match f tpl with
        | Ok info =>
            (fst (fst (k (id info, context info) w)),
             snd (fst (k (id info, context info) w)),
             CustomTags tpl :: snd (k (id info, context info) w))
        | Throw e => (Throw e, w, [CustomTags tpl])
        end
    end.
Proof.
  unfold bind, callCustomTagReplacement, throw, ret.
  destruct c as [f|]; [|reflexivity].
  destruct (f tpl) as [info|e]; [|reflexivity].
  cbn [app]. now destruct (k (id info, context info) w) as [[r w'] t].
Qed.
(** The default template path of [loginRequestRedirectURL], step by step. *)
Lemma loginRequest_default_run entity c w metadata_idp metadata_sp :
  entityMeta (idp entity) = Some metadata_idp ->
  entityMeta (sp entity) = Some metadata_sp ->
  truthy (loginRequestTemplate (entitySetting (sp entity))) = false ->
  let setting := entitySetting (sp entity) in
  let i := fst (generateID setting w) in
  let w1 := snd (generateID setting w) in
  let base := getSingleSignOnService metadata_idp (binding_redirect urn) in
  let tvalue :=
    [ ("ID", JString i);
      ("Destination", JString base);
      ("Issuer", JString (getEntityID metadata_sp));
      ("IssueInstant", JString (clock w1));
      ("NameIDFormat", JString (nameIDFormat (loginNameIDFormat setting)));
      ("AssertionConsumerServiceURL",
       JString (getAssertionConsumerService metadata_sp (binding_redirect urn)));
      ("EntityID", JString (getEntityID metadata_sp));
      ("AllowCreate", allowCreate setting) ] in
  let opts :=
    BuildRedirectConfig.mk base urlParams.samlRequest
      (isAuthnRequestSigned metadata_sp)
      (replaceTagsByValue libsaml (defaultLoginRequestTemplate libsaml) tvalue)
      setting None in
  loginRequestRedirectURL entity c w
  = match buildRedirectURL opts w1 with
    | (Ok url, w', t) =>
        (Ok {| id := i; context := url |}, w',
         GenerateID i :: ReplaceTags (defaultLoginRequestTemplate libsaml) tvalue :: t)
    | (Throw e, w', t) =>
        (Throw e, w',
         GenerateID i :: ReplaceTags (defaultLoginRequestTemplate libsaml) tvalue :: t)
    end.
Proof.
  intros Hi Hs Ht. cbv zeta. unfold loginRequestRedirectURL.
  rewrite Hi, Hs, Ht.
  unfold bind at 1. unfold bind at 1, callGenerateID.
  destruct (generateID (entitySetting (sp entity)) w) as [i w1].
  unfold bind at 1, toISOString. unfold bind at 1, callReplaceTags, ret at 1.
  cbn [fst snd app]. rewrite finish_run.
  now destruct (buildRedirectURL _ w1) as [[[url|e] w'] t].
Qed.

(** The caller's template path of [loginRequestRedirectURL], step by step. *)
Lemma loginRequest_custom_run entity c w metadata_idp metadata_sp tpl :
  entityMeta (idp entity) = Some metadata_idp ->
  entityMeta (sp entity) = Some metadata_sp ->
  loginRequestTemplate (entitySetting (sp entity)) = Some tpl ->
  tpl <> "" ->
  loginRequestRedirectURL entity c w
  = match c with
    | None => (Throw (TypeError "customTagReplacement is not a function"), w, [])
    | Some f =>
        match f tpl with
        | Ok info =>
            match buildRedirectURL
                    (BuildRedirectConfig.mk
                       (getSingleSignOnService metadata_idp (binding_redirect urn))
                       urlParams.samlRequest
                       (isAuthnRequestSigned metadata_sp)
                       (context info) (entitySetting (sp entity)) None) w with
            | (Ok url, w', t) =>
                (Ok {| id := id info; context := url |}, w', CustomTags tpl :: t)
            | (Throw e, w', t) => (Throw e, w', CustomTags tpl :: t)
            end
        | Throw e => (Throw e, w, [CustomTags tpl])
        end
    end.
Proof.
  intros Hi Hs Htpl Hne. unfold loginRequestRedirectURL.
  rewrite Hi, Hs, Htpl, (proj2 (truthy_Some tpl) Hne). cbv iota.
  rewrite custom_prelude_run.
  destruct c as [f|]; [|reflexivity].
  destruct (f tpl) as [info|e]; [|reflexivity].
  rewrite finish_run.
  now destruct (buildRedirectURL _ w) as [[[url|e] w'] t].
Qed.

(** The default template path of [logoutRequestRedirectURL], step by step. *)
Lemma logoutRequest_default_run user entity relayState c w metadata_init metadata_target :
  entityMeta (init entity) = Some metadata_init ->
  entityMeta (target entity) = Some metadata_target ->
  truthy (logoutRequestTemplate (entitySetting (init entity))) = false ->
  let setting := entitySetting (init entity) in
  let i := fst (generateID setting w) in
  let w1 := snd (generateID setting w) in
  let base := getSingleLogoutService metadata_target (binding_redirect urn) in
  let tvalue :=
    [ ("ID", JString i);
      ("Destination", JString base);
      ("EntityID", JString (getEntityID metadata_init));
      ("Issuer", JString (getEntityID metadata_init));
      ("IssueInstant", JString (clock w1));
      ("NameIDFormat", JString (nameIDFormat (logoutNameIDFormat setting)));
      ("NameID", logoutNameID user);
      ("SessionIndex", sessionIndex user) ] in
  let opts :=
    BuildRedirectConfig.mk base urlParams.logoutRequest
      (wantLogoutRequestSigned (entitySetting (target entity)))
      (replaceTagsByValue libsaml (defaultLogoutRequestTemplate libsaml) tvalue)
      setting relayState in
  logoutRequestRedirectURL user entity relayState c w
  = match buildRedirectURL opts w1 with
    | (Ok url, w', t) =>
        (Ok {| id := i; context := url |}, w',
         GenerateID i :: ReplaceTags (defaultLogoutRequestTemplate libsaml) tvalue :: t)
    | (Throw e, w', t) =>
        (Throw e, w',
         GenerateID i :: ReplaceTags (defaultLogoutRequestTemplate libsaml) tvalue :: t)
    end.
Proof.
  intros Hi Hs Ht. cbv zeta. unfold logoutRequestRedirectURL.
  rewrite Hi, Hs, Ht.
  unfold bind at 1. unfold bind at 1, callGenerateID.
  destruct (generateID (entitySetting (init entity)) w) as [i w1].
  unfold bind at 1, toISOString. unfold bind at 1, callReplaceTags, ret at 1.
  cbn [fst snd app]. rewrite finish_run.
  now destruct (buildRedirectURL _ w1) as [[[url|e] w'] t].
Qed.

(** The caller's template path of [logoutRequestRedirectURL], step by step. *)
Lemma logoutRequest_custom_run user entity relayState c w metadata_init metadata_target tpl :
  entityMeta (init entity) = Some metadata_init ->
  entityMeta (target entity) = Some metadata_target ->
  logoutRequestTemplate (entitySetting (init entity)) = Some tpl ->
  tpl <> "" ->
  logoutRequestRedirectURL user entity relayState c w
  = match c with
    | None => (Throw (TypeError "customTagReplacement is not a function"), w, [])
    | Some f =>
        match f tpl with
        | Ok info =>
            match buildRedirectURL
                    (BuildRedirectConfig.mk
                       (getSingleLogoutService metadata_target (binding_redirect urn))
                       urlParams.logoutRequest
                       (wantLogoutRequestSigned (entitySetting (target entity)))
                       (context info) (entitySetting (init entity)) relayState) w with
            | (Ok url, w', t) =>
                (Ok {| id := id info; context := url |}, w', CustomTags tpl :: t)
            | (Throw e, w', t) => (Throw e, w', CustomTags tpl :: t)
            end
        | Throw e => (Throw e, w, [CustomTags tpl])
        end
    end.
Proof.
  intros Hi Hs Htpl Hne. unfold logoutRequestRedirectURL.
  rewrite Hi, Hs, Htpl, (proj2 (truthy_Some tpl) Hne). cbv iota.
  rewrite custom_prelude_run.
  destruct c as [f|]; [|reflexivity].
  destruct (f tpl) as [info|e]; [|reflexivity].
  rewrite finish_run.
  now destruct (buildRedirectURL _ w) as [[[url|e] w'] t].
Qed.

(** The default template path of [logoutResponseRedirectURL], step by step. *)
Lemma logoutResponse_default_run requestInfo entity relayState c w metadata_init metadata_target :
  entityMeta (init entity) = Some metadata_init ->
  entityMeta (target entity) = Some metadata_target ->
  truthy (logoutResponseTemplate (entitySetting (init entity))) = false ->
  let setting := entitySetting (init entity) in
  let i := fst (generateID setting w) in
  let w1 := snd (generateID setting w) in
  let base := getSingleLogoutService metadata_target (binding_redirect urn) in
  let tvalue :=
    logoutResponseTagValues i base (getEntityID metadata_init) (clock w1) requestInfo in
  let opts :=
    BuildRedirectConfig.mk base urlParams.logoutResponse
      (wantLogoutResponseSigned (entitySetting (target entity)))
      (replaceTagsByValue libsaml (defaultLogoutResponseTemplate libsaml) tvalue)
      setting relayState in
  logoutResponseRedirectURL requestInfo entity relayState c w
  = match buildRedirectURL opts w1 with
    | (Ok url, w', t) =>
        (Ok {| id := i; context := url |}, w',
         GenerateID i :: ReplaceTags (defaultLogoutResponseTemplate libsaml) tvalue :: t)
    | (Throw e, w', t) =>
        (Throw e, w',
         GenerateID i :: ReplaceTags (defaultLogoutResponseTemplate libsaml) tvalue :: t)
    end.
Proof.
  intros Hi Hs Ht. cbv zeta. unfold logoutResponseRedirectURL.
  rewrite Hi, Hs, Ht.
  unfold bind at 1. unfold bind at 1, callGenerateID.
  destruct (generateID (entitySetting (init entity)) w) as [i w1].
  unfold bind at 1, toISOString. unfold bind at 1, callReplaceTags, ret at 1.
  cbn [fst snd app]. rewrite finish_run.
  now destruct (buildRedirectURL _ w1) as [[[url|e] w'] t].
Qed.

(** The caller's template path of [logoutResponseRedirectURL], step by step. *)
Lemma logoutResponse_custom_run requestInfo entity relayState c w metadata_init metadata_target tpl :
  entityMeta (init entity) = Some metadata_init ->
  entityMeta (target entity) = Some metadata_target ->
  logoutResponseTemplate (entitySetting (init entity)) = Some tpl ->
  tpl <> "" ->
  logoutResponseRedirectURL requestInfo entity relayState c w
  = match c with
    | None => (Throw (TypeError "customTagReplacement is not a function"), w, [])
    | Some f =>
        match f tpl with
        | Ok info =>
            match buildRedirectURL
                    (BuildRedirectConfig.mk
                       (getSingleLogoutService metadata_target (binding_redirect urn))
                       urlParams.logoutResponse
                       (wantLogoutResponseSigned (entitySetting (target entity)))
                       (context info) (entitySetting (init entity)) relayState) w with
            | (Ok url, w', t) =>
                (Ok {| id := id info; context := url |}, w', CustomTags tpl :: t)
            | (Throw e, w', t) => (Throw e, w', CustomTags tpl :: t)
            end
        | Throw e => (Throw e, w, [CustomTags tpl])
        end
    end.
Proof.
  intros Hi Hs Htpl Hne. unfold logoutResponseRedirectURL.
  rewrite Hi, Hs, Htpl, (proj2 (truthy_Some tpl) Hne). cbv iota.
  rewrite custom_prelude_run.
  destruct c as [f|]; [|reflexivity].
  destruct (f tpl) as [info|e]; [|reflexivity].
  rewrite finish_run.
  now destruct (buildRedirectURL _ w) as [[[url|e] w'] t].
Qed.


(** X2. A builder that has to sign returns a MessageContext only when the
    signer has answered: the signer was called once, with the private key,
    passphrase and algorithm of the sender's settings (the service provider
    for a login request, the initiator for a logout message), and the URL
    ends with that answer, percent-encoded, as Signature, right after the
    parameters that were signed. *)
Theorem built_signed_message_has_signature :
  (forall entity c w mc metadata_idp metadata_sp,
      entityMeta (idp entity) = Some metadata_idp ->
      entityMeta (sp entity) = Some metadata_sp ->
      isAuthnRequestSigned metadata_sp = true ->
      resultOf (loginRequestRedirectURL entity c w) = Ok mc ->
      let setting := entitySetting (sp entity) in
      exists octets signature,
        signingInputs (traceOf (loginRequestRedirectURL entity c w)) = [octets]
        /\ constructMessageSignature libsaml octets (privateKey setting)
             (privateKeyPass setting) None (requestSignatureAlgorithm setting)
           = Ok signature
        /\ queryParams (context mc)
           = (queryParams (getSingleSignOnService metadata_idp (binding_redirect urn))
              ++ parseQuery octets
              ++ [("Signature", encodeURIComponent signature)])%list)
  /\ (forall user entity relayState c w mc metadata_target,
        entityMeta (target entity) = Some metadata_target ->
        wantLogoutRequestSigned (entitySetting (target entity)) = true ->
        resultOf (logoutRequestRedirectURL user entity relayState c w) = Ok mc ->
        let setting := entitySetting (init entity) in
        exists octets signature,
          signingInputs
            (traceOf (logoutRequestRedirectURL user entity relayState c w))
          = [octets]
          /\ constructMessageSignature libsaml octets (privateKey setting)
               (privateKeyPass setting) None (requestSignatureAlgorithm setting)
             = Ok signature
          /\ queryParams (context mc)
             = (queryParams
                  (getSingleLogoutService metadata_target (binding_redirect urn))
                ++ parseQuery octets
                ++ [("Signature", encodeURIComponent signature)])%list)
  /\ (forall requestInfo entity relayState c w mc metadata_target,
        entityMeta (target entity) = Some metadata_target ->
        wantLogoutResponseSigned (entitySetting (target entity)) = true ->
        resultOf (logoutResponseRedirectURL requestInfo entity relayState c w)
        = Ok mc ->
        let setting := entitySetting (init entity) in
        exists octets signature,
          signingInputs
            (traceOf (logoutResponseRedirectURL requestInfo entity relayState c w))
          = [octets]
          /\ constructMessageSignature libsaml octets (privateKey setting)
               (privateKeyPass setting) None (requestSignatureAlgorithm setting)
             = Ok signature
          /\ queryParams (context mc)
             = (queryParams
                  (getSingleLogoutService metadata_target (binding_redirect urn))
                ++ parseQuery octets
                ++ [("Signature", encodeURIComponent signature)])%list).
Proof.
  repeat apply conj.
  - intros entity c w mc mi ms Hmi Hms Hflag H setting. run_of H r w' t Hrun.
    destruct (loginRequest_Ok _ _ _ _ _ _ Hrun)
      as (mi' & ms' & raw & w1 & t1 & t2 & Hmi' & Hms' & Hb & -> & Hs1 & _).
    rewrite Hmi in Hmi'; injection Hmi' as <-.
    rewrite Hms in Hms'; injection Hms' as <-.
    rewrite Hflag in Hb.
    apply buildRedirectURL_signed_Ok in Hb as (sg & Hsg & -> & _ & Hq);
      [|reflexivity].
    eexists; exists sg. unfold traceOf; cbn [snd].
    rewrite signingInputs_app, Hs1, parseQuery_canonicalSigningInput.
    repeat split; [exact Hsg | exact Hq].
  - intros user entity relayState c w mc mt Hmt Hflag H setting.
    run_of H r w' t Hrun.
    destruct (logoutRequest_Ok _ _ _ _ _ _ _ _ Hrun)
      as (mi' & mt' & raw & w1 & t1 & t2 & _ & Hmt' & Hb & -> & Hs1 & _).
    rewrite Hmt in Hmt'; injection Hmt' as <-.
    rewrite Hflag in Hb.
    apply buildRedirectURL_signed_Ok in Hb as (sg & Hsg & -> & _ & Hq);
      [|reflexivity].
    eexists; exists sg. unfold traceOf; cbn [snd].
    rewrite signingInputs_app, Hs1, parseQuery_canonicalSigningInput.
    repeat split; [exact Hsg | exact Hq].
  - intros requestInfo entity relayState c w mc mt Hmt Hflag H setting.
    run_of H r w' t Hrun.
    destruct (logoutResponse_Ok _ _ _ _ _ _ _ _ Hrun)
      as (mi' & mt' & raw & w1 & t1 & t2 & _ & Hmt' & Hb & -> & Hs1 & _).
    rewrite Hmt in Hmt'; injection Hmt' as <-.
    rewrite Hflag in Hb.
    apply buildRedirectURL_signed_Ok in Hb as (sg & Hsg & -> & _ & Hq);
      [|reflexivity].
    eexists; exists sg. unfold traceOf; cbn [snd].
    rewrite signingInputs_app, Hs1, parseQuery_canonicalSigningInput.
    repeat split; [exact Hsg | exact Hq].
Qed.

(** X3. A logout request, and a logout response, is signed exactly when the
    target entity's setting asks for it ([wantLogoutRequestSigned],
    [wantLogoutResponseSigned]): then, and only then, the signer has been
    called and the parameters added to the target's endpoint include SigAlg
    and Signature. *)
Theorem logout_signed_iff :
  (forall user entity relayState c w mc,
      resultOf (logoutRequestRedirectURL user entity relayState c w) = Ok mc ->
      exists metadata_target ps,
        entityMeta (target entity) = Some metadata_target
        /\ queryParams (context mc)
           = (queryParams
                (getSingleLogoutService metadata_target (binding_redirect urn))
              ++ ps)%list
        /\ hasKey "SigAlg" ps = wantLogoutRequestSigned (entitySetting (target entity))
        /\ hasKey "Signature" ps
           = wantLogoutRequestSigned (entitySetting (target entity))
        /\ (signingInputs
              (traceOf (logoutRequestRedirectURL user entity relayState c w)) <> []
            <-> wantLogoutRequestSigned (entitySetting (target entity)) = true))
  /\ (forall requestInfo entity relayState c w mc,
        resultOf (logoutResponseRedirectURL requestInfo entity relayState c w)
        = Ok mc ->
        exists metadata_target ps,
          entityMeta (target entity) = Some metadata_target
          /\ queryParams (context mc)
             = (queryParams
                  (getSingleLogoutService metadata_target (binding_redirect urn))
                ++ ps)%list
          /\ hasKey "SigAlg" ps
             = wantLogoutResponseSigned (entitySetting (target entity))
          /\ hasKey "Signature" ps
             = wantLogoutResponseSigned (entitySetting (target entity))
          /\ (signingInputs
                (traceOf
                   (logoutResponseRedirectURL requestInfo entity relayState c w))
              <> []
              <-> wantLogoutResponseSigned (entitySetting (target entity)) = true)).
Proof.
  split.
  - intros user entity relayState c w mc H. run_of H r w' t Hrun.
    destruct (logoutRequest_Ok _ _ _ _ _ _ _ _ Hrun)
      as (mi & mt & raw & w1 & t1 & t2 & _ & Hmt & Hb & -> & Hs1 & _).
    destruct (buildRedirectURL_Ok _ _ _ _ _ Hb) as (ps & _ & _ & Hq & Hcase).
    destruct (emitted_keys _ _ _ Hcase) as (Hk & Hs2).
    exists mt, ps. split; [exact Hmt|]. split; [exact Hq|].
    rewrite (hasKey_emitted _ _ "SigAlg" Hk), (hasKey_emitted _ _ "Signature" Hk)
      by auto.
    cbn [BuildRedirectConfig.isSigned] in *.
    repeat split; unfold traceOf; cbn [snd];
      rewrite signingInputs_app, Hs1, Hs2;
      destruct (wantLogoutRequestSigned _); cbn; congruence.
  - intros requestInfo entity relayState c w mc H. run_of H r w' t Hrun.
    destruct (logoutResponse_Ok _ _ _ _ _ _ _ _ Hrun)
      as (mi & mt & raw & w1 & t1 & t2 & _ & Hmt & Hb & -> & Hs1 & _).
    destruct (buildRedirectURL_Ok _ _ _ _ _ Hb) as (ps & _ & _ & Hq & Hcase).
    destruct (emitted_keys _ _ _ Hcase) as (Hk & Hs2).
    exists mt, ps. split; [exact Hmt|]. split; [exact Hq|].
    rewrite (hasKey_emitted _ _ "SigAlg" Hk), (hasKey_emitted _ _ "Signature" Hk)
      by auto.
    cbn [BuildRedirectConfig.isSigned] in *.
    repeat split; unfold traceOf; cbn [snd];
      rewrite signingInputs_app, Hs1, Hs2;
      destruct (wantLogoutResponseSigned _); cbn; congruence.
Qed.

(** X4. The URL of a logout response carries, after the parameters of the
    target's single-logout endpoint: the message under the name that
    [getQueryParamByType] gives for a logout response, then SigAlg when
    signed, then RelayState when a non-empty one was passed to the builder,
    then Signature when signed. *)
Theorem logoutResponse_parameters (requestInfo : option RequestInfo)
    (entity : LogoutEntity) (relayState : option string)
    (c : option (string -> Result BindingContext)) (w : World)
    (mc : BindingContext) :
  resultOf (logoutResponseRedirectURL requestInfo entity relayState c w) = Ok mc ->
  exists metadata_target payload tail,
    entityMeta (target entity) = Some metadata_target
    /\ queryParams (context mc)
       = (queryParams (getSingleLogoutService metadata_target (binding_redirect urn))
          ++ (getQueryParamByType urlParams.logoutResponse, payload)
             :: (if wantLogoutResponseSigned (entitySetting (target entity))
                 then [("SigAlg",
                        encodeURIComponent
                          (requestSignatureAlgorithm (entitySetting (init entity))))]
                 else [])
             ++ relayStateParam relayState
             ++ tail)%list
    /\ (if wantLogoutResponseSigned (entitySetting (target entity))
        then exists signature, tail = [("Signature", encodeURIComponent signature)]
        else tail = []).
Proof.
  intros H. run_of H r w' t Hrun.
  destruct (logoutResponse_Ok _ _ _ _ _ _ _ _ Hrun)
    as (mi & mt & raw & w1 & t1 & t2 & _ & Hmt & Hb & _).
  destruct (buildRedirectURL_params _ _ _ _ _ Hb) as (tail & Hq & Htail).
  cbn [BuildRedirectConfig.baseUrl BuildRedirectConfig.isSigned
       BuildRedirectConfig.type BuildRedirectConfig.relayState
       BuildRedirectConfig.entitySetting BuildRedirectConfig.context] in *.
  exists mt, (encodedPayload raw), tail. split; [exact Hmt|]. split; [exact Hq|].
  destruct (wantLogoutResponseSigned _); [|exact Htail].
  destruct Htail as (sg & -> & _). now exists sg.
Qed.

(** X5. With a template of the caller's, a builder returns the identifier
    the callback gave, untouched, and encodes the callback's context: the
    callback was called on the template, nothing was handed to the template
    substitution, and the world (the identifier generator with it) is as it
    was. *)
Theorem custom_template_is_trusted :
  (forall entity c w mc tpl,
      loginRequestTemplate (entitySetting (sp entity)) = Some tpl ->
      tpl <> "" ->
      resultOf (loginRequestRedirectURL entity c w) = Ok mc ->
      exists f info metadata_idp rest,
        c = Some f /\ f tpl = Ok info /\ id mc = id info
        /\ entityMeta (idp entity) = Some metadata_idp
        /\ queryParams (context mc)
           = (queryParams (getSingleSignOnService metadata_idp (binding_redirect urn))
              ++ (getQueryParamByType urlParams.samlRequest,
                  encodedPayload (context info)) :: rest)%list
        /\ substitutions (traceOf (loginRequestRedirectURL entity c w)) = []
        /\ snd (fst (loginRequestRedirectURL entity c w)) = w)
  /\ (forall user entity relayState c w mc tpl,
      logoutRequestTemplate (entitySetting (init entity)) = Some tpl ->
      tpl <> "" ->
      resultOf (logoutRequestRedirectURL user entity relayState c w) = Ok mc ->
      exists f info metadata_target rest,
        c = Some f /\ f tpl = Ok info /\ id mc = id info
        /\ entityMeta (target entity) = Some metadata_target
        /\ queryParams (context mc)
           = (queryParams (getSingleLogoutService metadata_target (binding_redirect urn))
              ++ (getQueryParamByType urlParams.logoutRequest,
                  encodedPayload (context info)) :: rest)%list
        /\ substitutions (traceOf (logoutRequestRedirectURL user entity relayState c w)) = []
        /\ snd (fst (logoutRequestRedirectURL user entity relayState c w)) = w)
  /\ (forall requestInfo entity relayState c w mc tpl,
      logoutResponseTemplate (entitySetting (init entity)) = Some tpl ->
      tpl <> "" ->
      resultOf (logoutResponseRedirectURL requestInfo entity relayState c w) = Ok mc ->
      exists f info metadata_target rest,
        c = Some f /\ f tpl = Ok info /\ id mc = id info
        /\ entityMeta (target entity) = Some metadata_target
        /\ queryParams (context mc)
           = (queryParams (getSingleLogoutService metadata_target (binding_redirect urn))
              ++ (getQueryParamByType urlParams.logoutResponse,
                  encodedPayload (context info)) :: rest)%list
        /\ substitutions (traceOf (logoutResponseRedirectURL requestInfo entity relayState c w)) = []
        /\ snd (fst (logoutResponseRedirectURL requestInfo entity relayState c w)) = w).
Proof.
  repeat apply conj.
  - intros entity c w mc tpl Htpl Hne H.
    destruct (entityMeta (idp entity)) as [m1|] eqn:Hm1;
      [|unfold loginRequestRedirectURL in H; rewrite Hm1 in H; discriminate].
    destruct (entityMeta (sp entity)) as [m2|] eqn:Hm2;
      [|unfold loginRequestRedirectURL in H; rewrite Hm1, Hm2 in H; discriminate].
    rewrite (loginRequest_custom_run entity c w _ _ _ Hm1 Hm2 Htpl Hne) in *.
    destruct c as [f|]; [|discriminate].
    destruct (f tpl) as [info|e] eqn:Hf; [|discriminate].
    destruct (buildRedirectURL _ w) as [[[url|e] w'] t] eqn:Hb; [|discriminate].
    unfold resultOf in H; cbn [fst] in H. injection H as <-.
    destruct (buildRedirectURL_message _ _ _ _ _ Hb) as (rest & Hq).
    destruct (buildRedirectURL_frame _ _ _ _ _ Hb) as (Hw & Hsub).
    unfold traceOf; cbn [fst snd substitutions context id].
    exists f, info, m1, rest. repeat split; auto.
  - intros user entity relayState c w mc tpl Htpl Hne H.
    destruct (entityMeta (init entity)) as [m1|] eqn:Hm1;
      [|unfold logoutRequestRedirectURL in H; rewrite Hm1 in H; discriminate].
    destruct (entityMeta (target entity)) as [m2|] eqn:Hm2;
      [|unfold logoutRequestRedirectURL in H; rewrite Hm1, Hm2 in H; discriminate].
    rewrite (logoutRequest_custom_run user entity relayState c w _ _ _ Hm1 Hm2 Htpl Hne) in *.
    destruct c as [f|]; [|discriminate].
    destruct (f tpl) as [info|e] eqn:Hf; [|discriminate].
    destruct (buildRedirectURL _ w) as [[[url|e] w'] t] eqn:Hb; [|discriminate].
    unfold resultOf in H; cbn [fst] in H. injection H as <-.
    destruct (buildRedirectURL_message _ _ _ _ _ Hb) as (rest & Hq).
    destruct (buildRedirectURL_frame _ _ _ _ _ Hb) as (Hw & Hsub).
    unfold traceOf; cbn [fst snd substitutions context id].
    exists f, info, m2, rest. repeat split; auto.
  - intros requestInfo entity relayState c w mc tpl Htpl Hne H.
    destruct (entityMeta (init entity)) as [m1|] eqn:Hm1;
      [|unfold logoutResponseRedirectURL in H; rewrite Hm1 in H; discriminate].
    destruct (entityMeta (target entity)) as [m2|] eqn:Hm2;
      [|unfold logoutResponseRedirectURL in H; rewrite Hm1, Hm2 in H; discriminate].
    rewrite (logoutResponse_custom_run requestInfo entity relayState c w _ _ _ Hm1 Hm2 Htpl Hne) in *.
    destruct c as [f|]; [|discriminate].
    destruct (f tpl) as [info|e] eqn:Hf; [|discriminate].
    destruct (buildRedirectURL _ w) as [[[url|e] w'] t] eqn:Hb; [|discriminate].
    unfold resultOf in H; cbn [fst] in H. injection H as <-.
    destruct (buildRedirectURL_message _ _ _ _ _ Hb) as (rest & Hq).
    destruct (buildRedirectURL_frame _ _ _ _ _ Hb) as (Hw & Hsub).
    unfold traceOf; cbn [fst snd substitutions context id].
    exists f, info, m2, rest. repeat split; auto.
Qed.

(** X6. With a template of the caller's and both metadata views present, a
    builder without callback throws the TypeError of calling [undefined],
    and a callback that throws makes the builder throw the same: in both
    cases before any identifier is generated or anything is signed. *)
Theorem custom_template_failures :
  (forall entity c w tpl metadata_idp metadata_sp,
      entityMeta (idp entity) = Some metadata_idp ->
      entityMeta (sp entity) = Some metadata_sp ->
      loginRequestTemplate (entitySetting (sp entity)) = Some tpl ->
      tpl <> "" ->
      (c = None ->
       loginRequestRedirectURL entity c w
       = (Throw (TypeError "customTagReplacement is not a function"), w, []))
      /\ (forall f e,
            c = Some f -> f tpl = Throw e ->
            loginRequestRedirectURL entity c w = (Throw e, w, [CustomTags tpl])))
  /\ (forall user entity relayState c w tpl metadata_init metadata_target,
      entityMeta (init entity) = Some metadata_init ->
      entityMeta (target entity) = Some metadata_target ->
      logoutRequestTemplate (entitySetting (init entity)) = Some tpl ->
      tpl <> "" ->
      (c = None ->
       logoutRequestRedirectURL user entity relayState c w
       = (Throw (TypeError "customTagReplacement is not a function"), w, []))
      /\ (forall f e,
            c = Some f -> f tpl = Throw e ->
            logoutRequestRedirectURL user entity relayState c w = (Throw e, w, [CustomTags tpl])))
  /\ (forall requestInfo entity relayState c w tpl metadata_init metadata_target,
      entityMeta (init entity) = Some metadata_init ->
      entityMeta (target entity) = Some metadata_target ->
      logoutResponseTemplate (entitySetting (init entity)) = Some tpl ->
      tpl <> "" ->
      (c = None ->
       logoutResponseRedirectURL requestInfo entity relayState c w
       = (Throw (TypeError "customTagReplacement is not a function"), w, []))
      /\ (forall f e,
            c = Some f -> f tpl = Throw e ->
            logoutResponseRedirectURL requestInfo entity relayState c w = (Throw e, w, [CustomTags tpl]))).
Proof.
  repeat apply conj.
  - intros entity c w tpl m1 m2 Hm1 Hm2 Htpl Hne.
    rewrite (loginRequest_custom_run entity c w _ _ _ Hm1 Hm2 Htpl Hne).
    split; [now intros -> | intros f e -> Hf; now rewrite Hf].
  - intros user entity relayState c w tpl m1 m2 Hm1 Hm2 Htpl Hne.
    rewrite (logoutRequest_custom_run user entity relayState c w _ _ _ Hm1 Hm2 Htpl Hne).
    split; [now intros -> | intros f e -> Hf; now rewrite Hf].
  - intros requestInfo entity relayState c w tpl m1 m2 Hm1 Hm2 Htpl Hne.
    rewrite (logoutResponse_custom_run requestInfo entity relayState c w _ _ _ Hm1 Hm2 Htpl Hne).
    split; [now intros -> | intros f e -> Hf; now rewrite Hf].
Qed.

(** What the default template path of [loginRequestRedirectURL] hands to the template
    substitution, whether or not the call succeeds afterwards. *)
Lemma loginRequest_default_substitutions entity c w metadata_idp metadata_sp :
  entityMeta (idp entity) = Some metadata_idp ->
  entityMeta (sp entity) = Some metadata_sp ->
  truthy (loginRequestTemplate (entitySetting (sp entity))) = false ->
  let setting := entitySetting (sp entity) in
  let i := fst (generateID setting w) in
  let w1 := snd (generateID setting w) in
  let base := getSingleSignOnService metadata_idp (binding_redirect urn) in
  substitutions (traceOf (loginRequestRedirectURL entity c w))
  = [
    [ ("ID", JString i);
      ("Destination", JString base);
      ("Issuer", JString (getEntityID metadata_sp));
      ("IssueInstant", JString (clock w1));
      ("NameIDFormat", JString (nameIDFormat (loginNameIDFormat setting)));
      ("AssertionConsumerServiceURL",
       JString (getAssertionConsumerService metadata_sp (binding_redirect urn)));
      ("EntityID", JString (getEntityID metadata_sp));
      ("AllowCreate", allowCreate setting) ] ].
Proof.
  intros Hi Hs Ht. cbv zeta.
  rewrite (loginRequest_default_run entity c w _ _ Hi Hs Ht). cbv zeta.
  destruct (buildRedirectURL _ _) as [[[url|e] w'] t] eqn:Hb;
    destruct (buildRedirectURL_frame _ _ _ _ _ Hb) as (_ & Hsub);
    unfold traceOf; cbn [snd substitutions]; now rewrite Hsub.
Qed.

(** What the default template path of [logoutRequestRedirectURL] hands to the template
    substitution, whether or not the call succeeds afterwards. *)
Lemma logoutRequest_default_substitutions user entity relayState c w metadata_init metadata_target :
  entityMeta (init entity) = Some metadata_init ->
  entityMeta (target entity) = Some metadata_target ->
  truthy (logoutRequestTemplate (entitySetting (init entity))) = false ->
  let setting := entitySetting (init entity) in
  let i := fst (generateID setting w) in
  let w1 := snd (generateID setting w) in
  let base := getSingleLogoutService metadata_target (binding_redirect urn) in
  substitutions (traceOf (logoutRequestRedirectURL user entity relayState c w))
  = [
    [ ("ID", JString i);
      ("Destination", JString base);
      ("EntityID", JString (getEntityID metadata_init));
      ("Issuer", JString (getEntityID metadata_init));
      ("IssueInstant", JString (clock w1));
      ("NameIDFormat", JString (nameIDFormat (logoutNameIDFormat setting)));
      ("NameID", logoutNameID user);
      ("SessionIndex", sessionIndex user) ] ].
Proof.
  intros Hi Hs Ht. cbv zeta.
  rewrite (logoutRequest_default_run user entity relayState c w _ _ Hi Hs Ht). cbv zeta.
  destruct (buildRedirectURL _ _) as [[[url|e] w'] t] eqn:Hb;
    destruct (buildRedirectURL_frame _ _ _ _ _ Hb) as (_ & Hsub);
    unfold traceOf; cbn [snd substitutions]; now rewrite Hsub.
Qed.

(** What the default template path of [logoutResponseRedirectURL] hands to the template
    substitution, whether or not the call succeeds afterwards. *)
Lemma logoutResponse_default_substitutions requestInfo entity relayState c w metadata_init metadata_target :
  entityMeta (init entity) = Some metadata_init ->
  entityMeta (target entity) = Some metadata_target ->
  truthy (logoutResponseTemplate (entitySetting (init entity))) = false ->
  let setting := entitySetting (init entity) in
  let i := fst (generateID setting w) in
  let w1 := snd (generateID setting w) in
  let base := getSingleLogoutService metadata_target (binding_redirect urn) in
  substitutions (traceOf (logoutResponseRedirectURL requestInfo entity relayState c w))
  = [
    logoutResponseTagValues i base (getEntityID metadata_init) (clock w1) requestInfo ].
Proof.
  intros Hi Hs Ht. cbv zeta.
  rewrite (logoutResponse_default_run requestInfo entity relayState c w _ _ Hi Hs Ht). cbv zeta.
  destruct (buildRedirectURL _ _) as [[[url|e] w'] t] eqn:Hb;
    destruct (buildRedirectURL_frame _ _ _ _ _ Hb) as (_ & Hsub);
    unfold traceOf; cbn [snd substitutions]; now rewrite Hsub.
Qed.

(** X7. On the default template path of a login request and of a logout
    request, the NameIDFormat placeholder is the format that
    [namespace.format] has under the configured name, and the emailAddress
    format when it has none (or an empty one) under that name. *)
Theorem nameIDFormat_falls_back :
  (forall entity c w metadata_idp metadata_sp,
      entityMeta (idp entity) = Some metadata_idp ->
      entityMeta (sp entity) = Some metadata_sp ->
      truthy (loginRequestTemplate (entitySetting (sp entity))) = false ->
      exists tvalue v,
        substitutions (traceOf (loginRequestRedirectURL entity c w)) = [tvalue]
        /\ lookupTag "NameIDFormat" tvalue = Some (JString v)
        /\ (forall f,
               namespace_format urn (loginNameIDFormat (entitySetting (sp entity)))
               = Some f -> f <> "" -> v = f)
        /\ (namespace_format urn (loginNameIDFormat (entitySetting (sp entity))) = None
            \/ namespace_format urn (loginNameIDFormat (entitySetting (sp entity)))
               = Some "" ->
            v = namespace_format_emailAddress urn))
  /\ (forall user entity relayState c w metadata_init metadata_target,
        entityMeta (init entity) = Some metadata_init ->
        entityMeta (target entity) = Some metadata_target ->
        truthy (logoutRequestTemplate (entitySetting (init entity))) = false ->
        exists tvalue v,
          substitutions
            (traceOf (logoutRequestRedirectURL user entity relayState c w))
          = [tvalue]
          /\ lookupTag "NameIDFormat" tvalue = Some (JString v)
          /\ (forall f,
                 namespace_format urn
                   (logoutNameIDFormat (entitySetting (init entity))) = Some f ->
                 f <> "" -> v = f)
          /\ (namespace_format urn (logoutNameIDFormat (entitySetting (init entity)))
              = None
              \/ namespace_format urn
                   (logoutNameIDFormat (entitySetting (init entity))) = Some "" ->
              v = namespace_format_emailAddress urn)).
Proof.
  split.
  - intros entity c w mi ms Hi Hs Ht.
    pose proof (loginRequest_default_substitutions entity c w _ _ Hi Hs Ht) as Hsub.
    cbv zeta in Hsub. eexists; eexists. split; [exact Hsub|].
    split; [reflexivity|]. unfold nameIDFormat. split.
    + intros f -> Hf. apply String.eqb_neq in Hf. now rewrite Hf.
    + now intros [-> | ->].
  - intros user entity relayState c w mi mt Hi Hs Ht.
    pose proof (logoutRequest_default_substitutions user entity relayState c w _ _
                  Hi Hs Ht) as Hsub.
    cbv zeta in Hsub. eexists; eexists. split; [exact Hsub|].
    split; [reflexivity|]. unfold nameIDFormat. split.
    + intros f -> Hf. apply String.eqb_neq in Hf. now rewrite Hf.
    + now intros [-> | ->].
Qed.

(** X8. On the default template path, the Destination placeholder of the
    document is the endpoint that the metadata gives for the Redirect
    binding (single sign-on of the identity provider, single logout of the
    target), and the URL returned starts with that very endpoint. *)
Theorem destination_is_the_endpoint :
  (forall entity c w metadata_idp metadata_sp,
      entityMeta (idp entity) = Some metadata_idp ->
      entityMeta (sp entity) = Some metadata_sp ->
      truthy (loginRequestTemplate (entitySetting (sp entity))) = false ->
      let base := getSingleSignOnService metadata_idp (binding_redirect urn) in
      exists tvalue,
        substitutions (traceOf (loginRequestRedirectURL entity c w)) = [tvalue]
        /\ lookupTag "Destination" tvalue = Some (JString base)
        /\ forall mc,
            resultOf (loginRequestRedirectURL entity c w) = Ok mc ->
            exists suffix, context mc = base ++ suffix)
  /\ (forall user entity relayState c w metadata_init metadata_target,
        entityMeta (init entity) = Some metadata_init ->
        entityMeta (target entity) = Some metadata_target ->
        truthy (logoutRequestTemplate (entitySetting (init entity))) = false ->
        let base := getSingleLogoutService metadata_target (binding_redirect urn) in
        exists tvalue,
          substitutions
            (traceOf (logoutRequestRedirectURL user entity relayState c w))
          = [tvalue]
          /\ lookupTag "Destination" tvalue = Some (JString base)
          /\ forall mc,
              resultOf (logoutRequestRedirectURL user entity relayState c w) = Ok mc ->
              exists suffix, context mc = base ++ suffix)
  /\ (forall requestInfo entity relayState c w metadata_init metadata_target,
        entityMeta (init entity) = Some metadata_init ->
        entityMeta (target entity) = Some metadata_target ->
        truthy (logoutResponseTemplate (entitySetting (init entity))) = false ->
        let base := getSingleLogoutService metadata_target (binding_redirect urn) in
        exists tvalue,
          substitutions
            (traceOf (logoutResponseRedirectURL requestInfo entity relayState c w))
          = [tvalue]
          /\ lookupTag "Destination" tvalue = Some (JString base)
          /\ forall mc,
              resultOf (logoutResponseRedirectURL requestInfo entity relayState c w)
              = Ok mc ->
              exists suffix, context mc = base ++ suffix).
Proof.
  repeat apply conj.
  - intros entity c w mi ms Hi Hs Ht base.
    pose proof (loginRequest_default_substitutions entity c w _ _ Hi Hs Ht) as Hsub.
    cbv zeta in Hsub. eexists. split; [exact Hsub|]. split; [reflexivity|].
    intros mc H. run_of H r w' t Hrun.
    destruct (loginRequest_Ok _ _ _ _ _ _ Hrun)
      as (mi' & ms' & raw & w1 & t1 & t2 & Hi' & _ & Hb & _).
    rewrite Hi in Hi'; injection Hi' as <-.
    destruct (buildRedirectURL_Ok _ _ _ _ _ Hb) as (ps & Hurl & _).
    eexists. exact Hurl.
  - intros user entity relayState c w mi mt Hi Hs Ht base.
    pose proof (logoutRequest_default_substitutions user entity relayState c w _ _
                  Hi Hs Ht) as Hsub.
    cbv zeta in Hsub. eexists. split; [exact Hsub|]. split; [reflexivity|].
    intros mc H. run_of H r w' t Hrun.
    destruct (logoutRequest_Ok _ _ _ _ _ _ _ _ Hrun)
      as (mi' & mt' & raw & w1 & t1 & t2 & _ & Hs' & Hb & _).
    rewrite Hs in Hs'; injection Hs' as <-.
    destruct (buildRedirectURL_Ok _ _ _ _ _ Hb) as (ps & Hurl & _).
    eexists. exact Hurl.
  - intros requestInfo entity relayState c w mi mt Hi Hs Ht base.
    pose proof (logoutResponse_default_substitutions requestInfo entity relayState
                  c w _ _ Hi Hs Ht) as Hsub.
    cbv zeta in Hsub. eexists. split; [exact Hsub|].
    split; [unfold logoutResponseTagValues;
            now destruct requestInfo as [[[[[[r]|]]|]]|]|].
    intros mc H. run_of H r w' t Hrun.
    destruct (logoutResponse_Ok _ _ _ _ _ _ _ _ Hrun)
      as (mi' & mt' & raw & w1 & t1 & t2 & _ & Hs' & Hb & _).
    rewrite Hs in Hs'; injection Hs' as <-.
    destruct (buildRedirectURL_Ok _ _ _ _ _ Hb) as (ps & Hurl & _).
    eexists. exact Hurl.
Qed.

(** X9. A non-empty RelayState survives the trip: among the parameters a
    call adds there is exactly one RelayState, and [decodeURIComponent]
    gives the supplied value back from it, whatever characters it holds. *)
Theorem relayState_round_trip (opts : BuildRedirectConfig.t) (w : World)
    (url relayState : string) :
  BuildRedirectConfig.relayState opts = Some relayState ->
  relayState <> "" ->
  resultOf (buildRedirectURL opts w) = Ok url ->
  exists ps v,
    queryParams url = (queryParams (BuildRedirectConfig.baseUrl opts) ++ ps)%list
    /\ filter (fun kv => String.eqb (fst kv) "RelayState") ps = [("RelayState", v)]
    /\ decodeURIComponent v = Some relayState.
Proof.
  intros Hr Hne H. run_of H r w' t Hrun.
  destruct (buildRedirectURL_params _ _ _ _ _ Hrun) as (tail & Hq & Htail).
  eexists; exists (encodeURIComponent relayState).
  split; [exact Hq|]. split; [|apply decode_encodeURIComponent].
  unfold relayStateParam. rewrite Hr.
  apply String.eqb_neq in Hne. rewrite Hne.
  destruct (BuildRedirectConfig.isSigned opts).
  - destruct Htail as (sg & -> & _).
    now destruct (BuildRedirectConfig.type opts).
  - subst tail. now destruct (BuildRedirectConfig.type opts).
Qed.

(** X10. No value can smuggle a parameter in: whatever the document, the
    RelayState, the algorithm name and the signature hold, the names of
    the parameters a call adds are the message name, then SigAlg when
    signed, then RelayState when a non-empty one is given, then Signature
    when signed. *)
Theorem added_parameter_names (opts : BuildRedirectConfig.t) (w : World)
    (url : string) :
  resultOf (buildRedirectURL opts w) = Ok url ->
  exists ps,
    queryParams url = (queryParams (BuildRedirectConfig.baseUrl opts) ++ ps)%list
    /\ keys ps
       = (getQueryParamByType (BuildRedirectConfig.type opts)
          :: (if BuildRedirectConfig.isSigned opts then ["SigAlg"] else [])
          ++ (if truthy (BuildRedirectConfig.relayState opts)
              then ["RelayState"] else [])
          ++ (if BuildRedirectConfig.isSigned opts then ["Signature"] else []))%list.
Proof.
  intros H. run_of H r w' t Hrun.
  destruct (buildRedirectURL_Ok _ _ _ _ _ Hrun) as (ps & _ & _ & Hq & Hcase).
  destruct (emitted_keys _ _ _ Hcase) as (Hk & _).
  exists ps. split; [exact Hq|]. rewrite Hk.
  unfold relayStateParam, truthy.
  destruct (BuildRedirectConfig.relayState opts) as [rs|];
    [destruct (String.eqb rs "")|]; reflexivity.
Qed.

(** X11. On the default template path the document is issued in the
    sender's name: the Issuer and EntityID placeholders are both the entity
    identifier of the service provider for a login request, and of the
    initiator, not of the target, for a logout request and a logout
    response. *)
Theorem issuer_is_the_sender :
  (forall entity c w metadata_idp metadata_sp,
      entityMeta (idp entity) = Some metadata_idp ->
      entityMeta (sp entity) = Some metadata_sp ->
      truthy (loginRequestTemplate (entitySetting (sp entity))) = false ->
      exists tvalue,
        substitutions (traceOf (loginRequestRedirectURL entity c w)) = [tvalue]
        /\ lookupTag "Issuer" tvalue = Some (JString (getEntityID metadata_sp))
        /\ lookupTag "EntityID" tvalue = Some (JString (getEntityID metadata_sp)))
  /\ (forall user entity relayState c w metadata_init metadata_target,
        entityMeta (init entity) = Some metadata_init ->
        entityMeta (target entity) = Some metadata_target ->
        truthy (logoutRequestTemplate (entitySetting (init entity))) = false ->
        exists tvalue,
          substitutions
            (traceOf (logoutRequestRedirectURL user entity relayState c w))
          = [tvalue]
          /\ lookupTag "Issuer" tvalue = Some (JString (getEntityID metadata_init))
          /\ lookupTag "EntityID" tvalue = Some (JString (getEntityID metadata_init)))
  /\ (forall requestInfo entity relayState c w metadata_init metadata_target,
        entityMeta (init entity) = Some metadata_init ->
        entityMeta (target entity) = Some metadata_target ->
        truthy (logoutResponseTemplate (entitySetting (init entity))) = false ->
        exists tvalue,
          substitutions
            (traceOf (logoutResponseRedirectURL requestInfo entity relayState c w))
          = [tvalue]
          /\ lookupTag "Issuer" tvalue = Some (JString (getEntityID metadata_init))
          /\ lookupTag "EntityID" tvalue
             = Some (JString (getEntityID metadata_init))).
Proof.
  repeat apply conj.
  - intros entity c w mi ms Hi Hs Ht.
    pose proof (loginRequest_default_substitutions entity c w _ _ Hi Hs Ht) as Hsub.
    cbv zeta in Hsub. eexists. split; [exact Hsub|]. now split.
  - intros user entity relayState c w mi mt Hi Hs Ht.
    pose proof (logoutRequest_default_substitutions user entity relayState c w _ _
                  Hi Hs Ht) as Hsub.
    cbv zeta in Hsub. eexists. split; [exact Hsub|]. now split.
  - intros requestInfo entity relayState c w mi mt Hi Hs Ht.
    pose proof (logoutResponse_default_substitutions requestInfo entity relayState
                  c w _ _ Hi Hs Ht) as Hsub.
    cbv zeta in Hsub. eexists. split; [exact Hsub|].
    unfold logoutResponseTagValues.
    now destruct requestInfo as [[[[[[r]|]]|]]|].
Qed.

(** X12. On the default template path of a logout request, the NameID and
    SessionIndex placeholders are [user.logoutNameID] and
    [user.sessionIndex] as they come, [undefined] included: there is no
    fallback for a missing one. *)
Theorem logoutRequest_subject (user : User) (entity : LogoutEntity)
    (relayState : option string) (c : option (string -> Result BindingContext))
    (w : World) (metadata_init metadata_target : EntityMeta) :
  entityMeta (init entity) = Some metadata_init ->
  entityMeta (target entity) = Some metadata_target ->
  truthy (logoutRequestTemplate (entitySetting (init entity))) = false ->
  exists tvalue,
    substitutions (traceOf (logoutRequestRedirectURL user entity relayState c w))
    = [tvalue]
    /\ lookupTag "NameID" tvalue = Some (logoutNameID user)
    /\ lookupTag "SessionIndex" tvalue = Some (sessionIndex user).
Proof.
  intros Hi Hs Ht.
  pose proof (logoutRequest_default_substitutions user entity relayState c w _ _
                Hi Hs Ht) as Hsub.
  cbv zeta in Hsub. eexists. split; [exact Hsub|]. now split.
Qed.

(** X13. On the default template path a logout response always reports
    success: the StatusCode placeholder is [namespace.statusCode.success],
    with or without request info, and the placeholders are ID, Destination,
    Issuer, EntityID, IssueInstant, StatusCode, followed by InResponseTo
    when a logout request was extracted. *)
Theorem logoutResponse_reports_success (requestInfo : option RequestInfo)
    (entity : LogoutEntity) (relayState : option string)
    (c : option (string -> Result BindingContext)) (w : World)
    (metadata_init metadata_target : EntityMeta) :
  entityMeta (init entity) = Some metadata_init ->
  entityMeta (target entity) = Some metadata_target ->
  truthy (logoutResponseTemplate (entitySetting (init entity))) = false ->
  exists tvalue,
    substitutions
      (traceOf (logoutResponseRedirectURL requestInfo entity relayState c w))
    = [tvalue]
    /\ lookupTag "StatusCode" tvalue
       = Some (JString (namespace_statusCode_success urn))
    /\ map fst tvalue
       = (["ID"; "Destination"; "Issuer"; "EntityID"; "IssueInstant"; "StatusCode"]
          ++ match extractedRequest requestInfo with
             | Some _ => ["InResponseTo"]
             | None => []
             end)%list.
Proof.
  intros Hi Hs Ht.
  pose proof (logoutResponse_default_substitutions requestInfo entity relayState
                c w _ _ Hi Hs Ht) as Hsub.
  cbv zeta in Hsub. eexists. split; [exact Hsub|].
  unfold logoutResponseTagValues, extractedRequest.
  now destruct requestInfo as [[[[[[r]|]]|]]|].
Qed.

(** X14. A pair written by [pvPair] after a URL is read back as that pair,
    after the parameters the URL had, when the name holds no [?], [&] or
    [=] and the value no [?] or [&]; the pair starts with [?] when [first]
    is [true] and with [&] otherwise, a missing [first] included. *)
Theorem pvPair_read_back (base param value : string) (first : option bool) :
  allChars plainChar param = true ->
  allChars notSeparator value = true ->
  queryParams (base ++ pvPair param value first)
  = (queryParams base ++ [(param, value)])%list
  /\ pvPair param value first
     = String (match first with Some true => "?"%char | _ => "&"%char end)
         (param ++ "=" ++ value).
Proof.
  intros Hp Hv.
  assert (Heq : pvPair param value first
                = String (match first with Some true => "?"%char | _ => "&"%char end)
                    (param ++ "=" ++ value)).
  { unfold pvPair. destruct first as [[]|]; norm_append; reflexivity. }
  split; [|exact Heq]. rewrite Heq. unfold queryParams.
  rewrite splitQuery_app_sep by (now destruct first as [[]|]).
  rewrite (splitQuery_plain (param ++ "=" ++ value)).
  - cbn [fst snd]. rewrite map_app. cbn [map].
    change (param ++ "=" ++ value) with (param ++ String "=" value).
    now rewrite (keyValue_plain _ _ (allChars_weaken _ _ _ plainChar_notEquals Hp)).
  - rewrite allChars_app.
    rewrite (allChars_weaken _ _ _ plainChar_notSeparator Hp). cbn.
    exact Hv.
Qed.



(** X17. The receiver can rebuild what was signed from the URL alone: the
    parameters a signed call adds are those of the signing input followed
    by Signature, and rendering them without the last gives the octets
    handed to the signer. *)
Theorem signing_input_rebuilt_from_url (opts : BuildRedirectConfig.t) (w : World)
    (url : string) :
  BuildRedirectConfig.isSigned opts = true ->
  resultOf (buildRedirectURL opts w) = Ok url ->
  exists octets ps signature,
    signingInputs (traceOf (buildRedirectURL opts w)) = [octets]
    /\ queryParams url
       = (queryParams (BuildRedirectConfig.baseUrl opts)
          ++ ps ++ [("Signature", signature)])%list
    /\ renderQuery ps = octets
    /\ parseQuery octets = ps.
Proof.
  intros Hs H. run_of H r w' t Hrun.
  destruct (buildRedirectURL_signed_Ok _ _ _ _ _ Hs Hrun) as (sg & _ & -> & _ & Hq).
  exists (canonicalSigningInput opts), (signedParams opts), (encodeURIComponent sg).
  unfold traceOf; cbn [snd signingInputs].
  split; [reflexivity|]. split; [exact Hq|]. split; [reflexivity|].
  apply parseQuery_canonicalSigningInput.
Qed.

End Redirect.

(* ------------------------------------------------------------------ *)
(** ** The builders at work *)

(** Scenario 1: an unsigned login request. *)
Example unsigned_login_request :
  resultOf
    (loginRequestRedirectURL storedDeflate simpleQuery (refLibsaml fixedSigner) refUrn
       (refLoginEntity "https://idp.example/sso" false) None refWorld)
  = Ok {| id := "_7";
          context := "https://idp.example/sso?SAMLRequest=AT0Awv88QXV0aG5SZXF1ZXN0IElEPSdfNycgRGVzdGluYXRpb249J2h0dHBzOi8vaWRwLmV4YW1wbGUvc3NvJy8%2B" |}.
Proof. vm_compute. reflexivity. Qed.

(** A signer that fails: the failure is that of the call, and no URL is
    returned. *)
Example signing_failure_propagates :
  logoutRequestRedirectURL storedDeflate simpleQuery (refLibsaml failingSigner) refUrn
    refUser (refLogoutEntity true) None None refWorld
  = (Throw (Thrown "no private key"),
     {| clock := "2017-03-01T00:00:00.000Z"; seed := 8 |},
     [ GenerateID "_7";
       ReplaceTags "<LogoutRequest ID='{ID}'/>"
         [ ("ID", JString "_7");
           ("Destination", JString "https://idp.example/slo");
           ("EntityID", JString "https://sp.example/metadata");
           ("Issuer", JString "https://sp.example/metadata");
           ("IssueInstant", JString "2017-03-01T00:00:00.000Z");
           ("NameIDFormat",
            JString "urn:oasis:names:tc:SAML:1.1:nameid-format:emailAddress");
           ("NameID", JString "user@sp.example");
           ("SessionIndex", JString "_s1") ];
       Sign "SAMLRequest=ARgA5%2F88TG9nb3V0UmVxdWVzdCBJRD0nXzcnLz4%3D&SigAlg=http%3A%2F%2Fwww.w3.org%2F2001%2F04%2Fxmldsig-more%23rsa-sha256"
         "key" None "http://www.w3.org/2001/04/xmldsig-more#rsa-sha256" ]).
Proof. vm_compute. reflexivity. Qed.

(** A custom template without the callback that goes with it. *)
Example custom_template_without_callback :
  resultOf
    (loginRequestRedirectURL storedDeflate simpleQuery (refLibsaml fixedSigner) refUrn
       {| idp := refEntity "https://idp.example/sso" false;
          sp := {| entityMeta := Some (refMeta "https://sp.example/acs" false);
                   entitySetting :=
                     {| requestSignatureAlgorithm := "";
                        privateKey := "";
                        privateKeyPass := None;
                        loginRequestTemplate := Some "<AuthnRequest/>";
                        logoutRequestTemplate := None;
                        logoutResponseTemplate := None;
                        generateID := fun w => ("_0", w);
                        loginNameIDFormat := "";
                        logoutNameIDFormat := "";
                        allowCreate := JUndefined;
                        wantLogoutRequestSigned := false;
                        wantLogoutResponseSigned := false |} |} |}
       None refWorld)
  = Throw (TypeError "customTagReplacement is not a function").
Proof. reflexivity. Qed.


(** C2: the signed logout request of scenario 3. RelayState does not come
    right after SAMLRequest: SigAlg stands between them. *)
Lemma relayState_after_sigAlg_when_signed :
  resultOf
    (logoutRequestRedirectURL storedDeflate simpleQuery (refLibsaml fixedSigner) refUrn
       refUser (refLogoutEntity true) (Some "deeplink123") None refWorld)
  = Ok {| id := "_7"; context := signedLogoutURL |}
  /\ keys (queryParams signedLogoutURL)
     = ["SAMLRequest"; "SigAlg"; "RelayState"; "Signature"]
  /\ follows "SAMLRequest" "RelayState" (keys (queryParams signedLogoutURL)) = false
  /\ follows "SigAlg" "RelayState" (keys (queryParams signedLogoutURL)) = true.
Proof. repeat split; vm_compute; reflexivity. Qed.

(** C2 at work: the same request, read with the order the code has. *)
Lemma logoutRequest_relayState_position_witness :
  "deeplink123" <> ""
  /\ resultOf
       (logoutRequestRedirectURL storedDeflate simpleQuery (refLibsaml fixedSigner)
          refUrn refUser (refLogoutEntity true) (Some "deeplink123") None refWorld)
     = Ok {| id := "_7"; context := signedLogoutURL |}
  /\ exists payload signature,
      queryParams signedLogoutURL
      = [ ("SAMLRequest", payload);
          ("SigAlg",
           "http%3A%2F%2Fwww.w3.org%2F2001%2F04%2Fxmldsig-more%23rsa-sha256");
          ("RelayState", "deeplink123");
          ("Signature", signature) ].
Proof.
  assert (Hr : "deeplink123" <> "") by discriminate.
  assert (Hrun : resultOf
                   (logoutRequestRedirectURL storedDeflate simpleQuery
                      (refLibsaml fixedSigner) refUrn refUser (refLogoutEntity true)
                      (Some "deeplink123") None refWorld)
                 = Ok {| id := "_7"; context := signedLogoutURL |})
    by (vm_compute; reflexivity).
  split; [exact Hr|]. split; [exact Hrun|].
  destruct (logoutRequest_relayState_position storedDeflate simpleQuery
              (refLibsaml fixedSigner) refUrn refUser (refLogoutEntity true)
              "deeplink123" None refWorld _ Hr Hrun)
    as (mt & payload & Hmt & Hq).
  injection Hmt as <-.
  destruct Hq as (signature & Hq).
  exists payload, (encodeURIComponent signature). exact Hq.
Defined.


(** C4 at work: a base URL with a query gets [&]. *)
Lemma first_parameter_separator_witness :
  resultOf
    (buildRedirectURL_parsing storedDeflate simpleQuery (refLibsaml fixedSigner)
       undecodableAuth (refOpts "https://idp.example/slo?a=b" false None) refWorld)
  = Ok "https://idp.example/slo?a=b&SAMLRequest=AQQA%2B%2F88eC8%2B"
  /\ undecodableAuth "https://idp.example/slo?a=b" = None
  /\ exists appended,
      "https://idp.example/slo?a=b&SAMLRequest=AQQA%2B%2F88eC8%2B"
      = "https://idp.example/slo?a=b" ++ "&" ++ appended.
Proof.
  assert (Hrun : resultOf
                   (buildRedirectURL_parsing storedDeflate simpleQuery
                      (refLibsaml fixedSigner) undecodableAuth
                      (refOpts "https://idp.example/slo?a=b" false None) refWorld)
                 = Ok "https://idp.example/slo?a=b&SAMLRequest=AQQA%2B%2F88eC8%2B")
    by (vm_compute; reflexivity).
  split; [exact Hrun|].
  destruct (proj2 (first_parameter_separator storedDeflate simpleQuery
                     (refLibsaml fixedSigner) undecodableAuth
                     (refOpts "https://idp.example/slo?a=b" false None) refWorld)
              _ Hrun)
    as (Hparsed & value & ps & _ & _ & Hamp & _).
  split; [exact Hparsed|].
  eexists. apply (Hamp "a=b"); [reflexivity | cbn; lia].
Defined.

(** C4: a base URL whose user information cannot be decoded. The parse
    throws, and so does the call; the URL that a base URL without
    parameters would get is not returned. *)
Lemma malformed_baseUrl_is_fatal :
  undecodableAuth "https://user%@idp.example/slo"
  = Some (Thrown "URIError: URI malformed")
  /\ buildRedirectURL_parsing storedDeflate simpleQuery (refLibsaml fixedSigner)
       undecodableAuth (refOpts "https://user%@idp.example/slo" false None) refWorld
     = (Throw (Thrown "URIError: URI malformed"), refWorld, [])
  /\ resultOf
       (buildRedirectURL_parsing storedDeflate simpleQuery (refLibsaml fixedSigner)
          undecodableAuth (refOpts "https://user%@idp.example/slo" false None)
          refWorld)
     <> Ok "https://user%@idp.example/slo?SAMLRequest=AQQA%2B%2F88eC8%2B".
Proof. repeat split; vm_compute; try reflexivity; discriminate. Qed.

(** C5 at work: an empty RelayState leaves no trace in a signed URL. *)
Lemma relayState_omitted_witness :
  (BuildRedirectConfig.relayState (refOpts "https://idp.example/slo" true (Some ""))
   = None
   \/ BuildRedirectConfig.relayState (refOpts "https://idp.example/slo" true (Some ""))
      = Some "")
  /\ resultOf
       (buildRedirectURL storedDeflate simpleQuery (refLibsaml fixedSigner)
          (refOpts "https://idp.example/slo" true (Some "")) refWorld)
     = Ok "https://idp.example/slo?SAMLRequest=AQQA%2B%2F88eC8%2B&SigAlg=http%3A%2F%2Fwww.w3.org%2F2001%2F04%2Fxmldsig-more%23rsa-sha256&Signature=c2ln%2B%2F8%3D"
  /\ hasKey "RelayState"
       (queryParams
          "https://idp.example/slo?SAMLRequest=AQQA%2B%2F88eC8%2B&SigAlg=http%3A%2F%2Fwww.w3.org%2F2001%2F04%2Fxmldsig-more%23rsa-sha256&Signature=c2ln%2B%2F8%3D")
     = false.
Proof.
  assert (Hrun : resultOf
                   (buildRedirectURL storedDeflate simpleQuery (refLibsaml fixedSigner)
                      (refOpts "https://idp.example/slo" true (Some "")) refWorld)
                 = Ok "https://idp.example/slo?SAMLRequest=AQQA%2B%2F88eC8%2B&SigAlg=http%3A%2F%2Fwww.w3.org%2F2001%2F04%2Fxmldsig-more%23rsa-sha256&Signature=c2ln%2B%2F8%3D")
    by (vm_compute; reflexivity).
  split; [right; reflexivity|]. split; [exact Hrun|].
  destruct (proj2 (relayState_omitted storedDeflate simpleQuery
                     (refLibsaml fixedSigner)
                     (refOpts "https://idp.example/slo" true (Some "")) refWorld
                     (or_intror eq_refl)) _ Hrun)
    as (ps & _ & _ & _ & _ & Hbase).
  apply Hbase. reflexivity.
Defined.

(** C5: without RelayState, the RelayState parameter of a base URL that
    has one is still in the URL. *)
Lemma relayState_of_baseUrl_kept :
  BuildRedirectConfig.relayState
    (refOpts "https://idp.example/slo?RelayState=abc" false None) = None
  /\ resultOf
       (buildRedirectURL storedDeflate simpleQuery (refLibsaml fixedSigner)
          (refOpts "https://idp.example/slo?RelayState=abc" false None) refWorld)
     = Ok "https://idp.example/slo?RelayState=abc&SAMLRequest=AQQA%2B%2F88eC8%2B"
  /\ queryParams "https://idp.example/slo?RelayState=abc&SAMLRequest=AQQA%2B%2F88eC8%2B"
     = [("RelayState", "abc"); ("SAMLRequest", "AQQA%2B%2F88eC8%2B")]
  /\ hasKey "RelayState"
       (queryParams
          "https://idp.example/slo?RelayState=abc&SAMLRequest=AQQA%2B%2F88eC8%2B")
     = true.
Proof. repeat split; vm_compute; reflexivity. Qed.

(** C10: a login request for an identity provider whose endpoint has a
    RelayState parameter. *)
Lemma login_endpoint_relayState_kept :
  resultOf
    (loginRequestRedirectURL storedDeflate simpleQuery (refLibsaml fixedSigner) refUrn
       (refLoginEntity "https://idp.example/sso?RelayState=abc" false) None refWorld)
  = Ok {| id := "_7";
          context := "https://idp.example/sso?RelayState=abc&SAMLRequest=AUwAs%2F88QXV0aG5SZXF1ZXN0IElEPSdfNycgRGVzdGluYXRpb249J2h0dHBzOi8vaWRwLmV4YW1wbGUvc3NvP1JlbGF5U3RhdGU9YWJjJy8%2B" |}
  /\ keys
       (queryParams
          "https://idp.example/sso?RelayState=abc&SAMLRequest=AUwAs%2F88QXV0aG5SZXF1ZXN0IElEPSdfNycgRGVzdGluYXRpb249J2h0dHBzOi8vaWRwLmV4YW1wbGUvc3NvP1JlbGF5U3RhdGU9YWJjJy8%2B")
     = ["RelayState"; "SAMLRequest"]
  /\ hasKey "RelayState"
       (queryParams
          "https://idp.example/sso?RelayState=abc&SAMLRequest=AUwAs%2F88QXV0aG5SZXF1ZXN0IElEPSdfNycgRGVzdGluYXRpb249J2h0dHBzOi8vaWRwLmV4YW1wbGUvc3NvP1JlbGF5U3RhdGU9YWJjJy8%2B")
     = true.
Proof. repeat split; vm_compute; reflexivity. Qed.

(** C6: a service provider that does not sign its authentication
    requests, and an identity provider whose endpoint has a SigAlg and a
    Signature parameter. The URL contains both, and nothing was signed. *)
Lemma unsigned_login_with_signature_parameters :
  option_map isAuthnRequestSigned
    (entityMeta
       (sp (refLoginEntity "https://idp.example/sso?SigAlg=x&Signature=y" false)))
  = Some false
  /\ resultOf
       (loginRequestRedirectURL storedDeflate simpleQuery (refLibsaml fixedSigner)
          refUrn (refLoginEntity "https://idp.example/sso?SigAlg=x&Signature=y" false)
          None refWorld)
     = Ok {| id := "_7";
             context := "https://idp.example/sso?SigAlg=x&Signature=y&SAMLRequest=AVIArf88QXV0aG5SZXF1ZXN0IElEPSdfNycgRGVzdGluYXRpb249J2h0dHBzOi8vaWRwLmV4YW1wbGUvc3NvP1NpZ0FsZz14JlNpZ25hdHVyZT15Jy8%2B" |}
  /\ signingInputs
       (traceOf
          (loginRequestRedirectURL storedDeflate simpleQuery (refLibsaml fixedSigner)
             refUrn
             (refLoginEntity "https://idp.example/sso?SigAlg=x&Signature=y" false)
             None refWorld))
     = []
  /\ keys
       (queryParams
          "https://idp.example/sso?SigAlg=x&Signature=y&SAMLRequest=AVIArf88QXV0aG5SZXF1ZXN0IElEPSdfNycgRGVzdGluYXRpb249J2h0dHBzOi8vaWRwLmV4YW1wbGUvc3NvP1NpZ0FsZz14JlNpZ25hdHVyZT15Jy8%2B")
     = ["SigAlg"; "Signature"; "SAMLRequest"]
  /\ hasKey "SigAlg"
       (queryParams
          "https://idp.example/sso?SigAlg=x&Signature=y&SAMLRequest=AVIArf88QXV0aG5SZXF1ZXN0IElEPSdfNycgRGVzdGluYXRpb249J2h0dHBzOi8vaWRwLmV4YW1wbGUvc3NvP1NpZ0FsZz14JlNpZ25hdHVyZT15Jy8%2B")
     = true
  /\ hasKey "Signature"
       (queryParams
          "https://idp.example/sso?SigAlg=x&Signature=y&SAMLRequest=AVIArf88QXV0aG5SZXF1ZXN0IElEPSdfNycgRGVzdGluYXRpb249J2h0dHBzOi8vaWRwLmV4YW1wbGUvc3NvP1NpZ0FsZz14JlNpZ25hdHVyZT15Jy8%2B")
     = true.
Proof. repeat split; vm_compute; reflexivity. Qed.

(** C6 at work: a service provider that signs its authentication
    requests. *)
Lemma login_signed_iff_witness :
  resultOf
    (loginRequestRedirectURL storedDeflate simpleQuery (refLibsaml fixedSigner) refUrn
       (refLoginEntity "https://idp.example/sso" true) None refWorld)
  = Ok {| id := "_7"; context := signedLoginURL |}
  /\ exists ps,
      queryParams signedLoginURL = ps
      /\ (hasKey "SigAlg" ps = true /\ hasKey "Signature" ps = true <-> true = true).
Proof.
  assert (Hrun : resultOf
                   (loginRequestRedirectURL storedDeflate simpleQuery
                      (refLibsaml fixedSigner) refUrn
                      (refLoginEntity "https://idp.example/sso" true) None refWorld)
                 = Ok {| id := "_7"; context := signedLoginURL |})
    by (vm_compute; reflexivity).
  split; [exact Hrun|].
  destruct (login_signed_iff storedDeflate simpleQuery (refLibsaml fixedSigner) refUrn
              _ _ _ _ Hrun)
    as (mi & ms & ps & Hmi & Hms & _ & Hq & Hiff & _ & _ & _).
  injection Hmi as <-. injection Hms as <-.
  exists ps. split; [exact Hq | exact Hiff].
Defined.

(** C7 at work: a login request without identity-provider metadata. *)
Lemma missing_metadata_fails_witness :
  loginRequestRedirectURL storedDeflate simpleQuery (refLibsaml fixedSigner) refUrn
    {| idp := noMetadata; sp := refEntity "https://sp.example/acs" false |}
    None refWorld
  = (Throw (Error "Missing declaration of metadata"), refWorld, []).
Proof.
  apply (proj1 (missing_metadata_fails storedDeflate simpleQuery
                  (refLibsaml fixedSigner) refUrn)).
  left; reflexivity.
Defined.

(** C8: the extracted logout request has no identifier, and yet an
    [InResponseTo] entry, [undefined], reaches the template substitution. *)
Lemma inResponseTo_supplied_without_identifier :
  extractedRequestId anonymousRequestInfo = None
  /\ resultOf
       (logoutResponseRedirectURL storedDeflate simpleQuery (refLibsaml fixedSigner)
          refUrn anonymousRequestInfo (refLogoutEntity false) None None refWorld)
     = Ok {| id := "_7";
             context := "https://idp.example/slo?SAMLResponse=ATIAzf88TG9nb3V0UmVzcG9uc2UgSUQ9J183JyBJblJlc3BvbnNlVG89J3VuZGVmaW5lZCcvPg%3D%3D" |}
  /\ map (hasTag "InResponseTo")
       (substitutions
          (traceOf
             (logoutResponseRedirectURL storedDeflate simpleQuery
                (refLibsaml fixedSigner) refUrn anonymousRequestInfo
                (refLogoutEntity false) None None refWorld)))
     = [true]
  /\ map (lookupTag "InResponseTo")
       (substitutions
          (traceOf
             (logoutResponseRedirectURL storedDeflate simpleQuery
                (refLibsaml fixedSigner) refUrn anonymousRequestInfo
                (refLogoutEntity false) None None refWorld)))
     = [Some JUndefined]
  /\ option_map storedInflate
       (base64Decode "ATIAzf88TG9nb3V0UmVzcG9uc2UgSUQ9J183JyBJblJlc3BvbnNlVG89J3VuZGVmaW5lZCcvPg==")
     = Some (Some "<LogoutResponse ID='_7' InResponseTo='undefined'/>").
Proof. repeat split; vm_compute; reflexivity. Qed.

(** C8 at work, scenario 4: the request that is answered has the
    identifier [_abc123]. *)
Lemma logoutResponse_inResponseTo_witness :
  truthy (logoutResponseTemplate (entitySetting (init (refLogoutEntity false)))) = false
  /\ resultOf
       (logoutResponseRedirectURL storedDeflate simpleQuery (refLibsaml fixedSigner)
          refUrn knownRequestInfo (refLogoutEntity false) None None refWorld)
     = Ok {| id := "_7";
             context := "https://idp.example/slo?SAMLResponse=ATAAz%2F88TG9nb3V0UmVzcG9uc2UgSUQ9J183JyBJblJlc3BvbnNlVG89J19hYmMxMjMnLz4%3D" |}
  /\ exists tvalue,
      substitutions
        (traceOf
           (logoutResponseRedirectURL storedDeflate simpleQuery
              (refLibsaml fixedSigner) refUrn knownRequestInfo
              (refLogoutEntity false) None None refWorld))
      = [tvalue]
      /\ lookupTag "InResponseTo" tvalue = Some (JString "_abc123").
Proof.
  assert (Hrun : resultOf
                   (logoutResponseRedirectURL storedDeflate simpleQuery
                      (refLibsaml fixedSigner) refUrn knownRequestInfo
                      (refLogoutEntity false) None None refWorld)
                 = Ok {| id := "_7";
                         context := "https://idp.example/slo?SAMLResponse=ATAAz%2F88TG9nb3V0UmVzcG9uc2UgSUQ9J183JyBJblJlc3BvbnNlVG89J19hYmMxMjMnLz4%3D" |})
    by (vm_compute; reflexivity).
  split; [reflexivity|]. split; [exact Hrun|].
  destruct (logoutResponse_inResponseTo storedDeflate simpleQuery
              (refLibsaml fixedSigner) refUrn _ (refLogoutEntity false) _ _ _ _
              eq_refl Hrun)
    as (tvalue & Hs & Hknown & _).
  exists tvalue. split; [exact Hs|].
  apply (Hknown {| requestId := Some "_abc123" |}); reflexivity.
Defined.


(** C10 at work: the URL of a signed login request has no RelayState. *)
Lemma login_without_relayState_witness :
  resultOf
    (loginRequestRedirectURL storedDeflate simpleQuery (refLibsaml fixedSigner) refUrn
       (refLoginEntity "https://idp.example/sso" true) None refWorld)
  = Ok {| id := "_7"; context := signedLoginURL |}
  /\ hasKey "RelayState" (queryParams signedLoginURL) = false.
Proof.
  assert (Hrun : resultOf
                   (loginRequestRedirectURL storedDeflate simpleQuery
                      (refLibsaml fixedSigner) refUrn
                      (refLoginEntity "https://idp.example/sso" true) None refWorld)
                 = Ok {| id := "_7"; context := signedLoginURL |})
    by (vm_compute; reflexivity).
  split; [exact Hrun|].
  destruct (proj2 (login_without_relayState storedDeflate simpleQuery
                     (refLibsaml fixedSigner) refUrn _ _ _) _ Hrun)
    as (mi & ms & ps & Hmi & _ & _ & _ & _ & _ & Hbase).
  injection Hmi as <-. apply Hbase. reflexivity.
Defined.

(* ------------------------------------------------------------------ *)
(** ** More of the code at work *)


(** X2 at work: the signed logout request of scenario 3. *)
Lemma built_signed_message_has_signature_witness :
  entityMeta (target (refLogoutEntity true))
  = Some (refMeta "https://idp.example/slo" true)
  /\ wantLogoutRequestSigned (entitySetting (target (refLogoutEntity true))) = true
  /\ resultOf
       (logoutRequestRedirectURL storedDeflate simpleQuery (refLibsaml fixedSigner)
          refUrn refUser (refLogoutEntity true) (Some "deeplink123") None refWorld)
     = Ok {| id := "_7"; context := signedLogoutURL |}
  /\ exists octets signature,
      signingInputs
        (traceOf
           (logoutRequestRedirectURL storedDeflate simpleQuery
              (refLibsaml fixedSigner) refUrn refUser (refLogoutEntity true)
              (Some "deeplink123") None refWorld))
      = [octets]
      /\ fixedSigner octets = Ok signature
      /\ queryParams signedLogoutURL
         = (parseQuery octets ++ [("Signature", encodeURIComponent signature)])%list.
Proof.
  assert (Hrun : resultOf
                   (logoutRequestRedirectURL storedDeflate simpleQuery
                      (refLibsaml fixedSigner) refUrn refUser (refLogoutEntity true)
                      (Some "deeplink123") None refWorld)
                 = Ok {| id := "_7"; context := signedLogoutURL |})
    by (vm_compute; reflexivity).
  split; [reflexivity|]. split; [reflexivity|]. split; [exact Hrun|].
  destruct (proj1 (proj2 (built_signed_message_has_signature storedDeflate
                            simpleQuery (refLibsaml fixedSigner) refUrn))
              refUser (refLogoutEntity true) (Some "deeplink123") None refWorld _ _
              eq_refl eq_refl Hrun)
    as (octets & signature & Hs & Hsg & Hq).
  exists octets, signature. split; [exact Hs|]. split; [exact Hsg | exact Hq].
Defined.

(** X3 at work: the same request, signed because the target asks for it. *)
Lemma logout_signed_iff_witness :
  resultOf
    (logoutRequestRedirectURL storedDeflate simpleQuery (refLibsaml fixedSigner)
       refUrn refUser (refLogoutEntity true) (Some "deeplink123") None refWorld)
  = Ok {| id := "_7"; context := signedLogoutURL |}
  /\ exists ps,
      queryParams signedLogoutURL = ps
      /\ hasKey "SigAlg" ps = true /\ hasKey "Signature" ps = true.
Proof.
  assert (Hrun : resultOf
                   (logoutRequestRedirectURL storedDeflate simpleQuery
                      (refLibsaml fixedSigner) refUrn refUser (refLogoutEntity true)
                      (Some "deeplink123") None refWorld)
                 = Ok {| id := "_7"; context := signedLogoutURL |})
    by (vm_compute; reflexivity).
  split; [exact Hrun|].
  destruct (proj1 (logout_signed_iff storedDeflate simpleQuery
                     (refLibsaml fixedSigner) refUrn) _ _ _ _ _ _ Hrun)
    as (mt & ps & Hmt & Hq & H1 & H2 & _).
  injection Hmt as <-.
  exists ps. split; [exact Hq|]. split; [exact H1 | exact H2].
Defined.

(** X4 at work: an unsigned logout response with RelayState. *)
Lemma logoutResponse_parameters_witness :
  resultOf
    (logoutResponseRedirectURL storedDeflate simpleQuery (refLibsaml fixedSigner)
       refUrn knownRequestInfo (refLogoutEntity false) (Some "deeplink123") None
       refWorld)
  = Ok {| id := "_7";
          context := "https://idp.example/slo?SAMLResponse=ATAAz%2F88TG9nb3V0UmVzcG9uc2UgSUQ9J183JyBJblJlc3BvbnNlVG89J19hYmMxMjMnLz4%3D&RelayState=deeplink123" |}
  /\ exists payload,
      queryParams
        "https://idp.example/slo?SAMLResponse=ATAAz%2F88TG9nb3V0UmVzcG9uc2UgSUQ9J183JyBJblJlc3BvbnNlVG89J19hYmMxMjMnLz4%3D&RelayState=deeplink123"
      = [ ("SAMLResponse", payload); ("RelayState", "deeplink123") ].
Proof.
  assert (Hrun : resultOf
                   (logoutResponseRedirectURL storedDeflate simpleQuery
                      (refLibsaml fixedSigner) refUrn knownRequestInfo
                      (refLogoutEntity false) (Some "deeplink123") None refWorld)
                 = Ok {| id := "_7";
                         context := "https://idp.example/slo?SAMLResponse=ATAAz%2F88TG9nb3V0UmVzcG9uc2UgSUQ9J183JyBJblJlc3BvbnNlVG89J19hYmMxMjMnLz4%3D&RelayState=deeplink123" |})
    by (vm_compute; reflexivity).
  split; [exact Hrun|].
  destruct (logoutResponse_parameters storedDeflate simpleQuery
              (refLibsaml fixedSigner) refUrn _ _ _ _ _ _ Hrun)
    as (mt & payload & tail & Hmt & Hq & Htail).
  injection Hmt as <-. cbn in Htail. subst tail.
  exists payload. exact Hq.
Defined.

(** X5 at work: a login request from a template of the caller's. *)
Lemma custom_template_is_trusted_witness :
  loginRequestTemplate (entitySetting (sp refCustomLoginEntity))
  = Some "<AuthnRequest ID='{ID}'/>"
  /\ "<AuthnRequest ID='{ID}'/>" <> ""
  /\ resultOf
       (loginRequestRedirectURL storedDeflate simpleQuery (refLibsaml fixedSigner)
          refUrn refCustomLoginEntity (Some refCallback) refWorld)
     = Ok {| id := "_custom1";
             context := "https://idp.example/sso?SAMLRequest=AR0A4v88QXV0aG5SZXF1ZXN0IElEPSdfY3VzdG9tMScvPg%3D%3D" |}
  /\ exists info,
      refCallback "<AuthnRequest ID='{ID}'/>" = Ok info
      /\ "_custom1" = id info
      /\ substitutions
           (traceOf
              (loginRequestRedirectURL storedDeflate simpleQuery
                 (refLibsaml fixedSigner) refUrn refCustomLoginEntity
                 (Some refCallback) refWorld)) = [].
Proof.
  assert (Hne : "<AuthnRequest ID='{ID}'/>" <> "") by discriminate.
  assert (Hrun : resultOf
                   (loginRequestRedirectURL storedDeflate simpleQuery
                      (refLibsaml fixedSigner) refUrn refCustomLoginEntity
                      (Some refCallback) refWorld)
                 = Ok {| id := "_custom1";
                         context := "https://idp.example/sso?SAMLRequest=AR0A4v88QXV0aG5SZXF1ZXN0IElEPSdfY3VzdG9tMScvPg%3D%3D" |})
    by (vm_compute; reflexivity).
  split; [reflexivity|]. split; [exact Hne|]. split; [exact Hrun|].
  destruct (proj1 (custom_template_is_trusted storedDeflate simpleQuery
                     (refLibsaml fixedSigner) refUrn)
              refCustomLoginEntity (Some refCallback) refWorld _ _ eq_refl Hne Hrun)
    as (f & info & mi & rest & Hc & Hf & Hid & _ & _ & Hsub & _).
  injection Hc as <-.
  exists info. split; [exact Hf|]. split; [exact Hid | exact Hsub].
Defined.

(** X6 at work: the callback is missing, or it throws. *)
Lemma custom_template_failures_witness :
  loginRequestRedirectURL storedDeflate simpleQuery (refLibsaml fixedSigner) refUrn
    refCustomLoginEntity None refWorld
  = (Throw (TypeError "customTagReplacement is not a function"), refWorld, [])
  /\ loginRequestRedirectURL storedDeflate simpleQuery (refLibsaml fixedSigner) refUrn
       refCustomLoginEntity (Some failingCallback) refWorld
     = (Throw (Thrown "no such template"), refWorld,
        [CustomTags "<AuthnRequest ID='{ID}'/>"]).
Proof.
  assert (Hne : "<AuthnRequest ID='{ID}'/>" <> "") by discriminate.
  split.
  - apply (proj1 (proj1 (custom_template_failures storedDeflate simpleQuery
                           (refLibsaml fixedSigner) refUrn)
                    refCustomLoginEntity None refWorld _ _ _
                    eq_refl eq_refl eq_refl Hne)).
    reflexivity.
  - apply (proj2 (proj1 (custom_template_failures storedDeflate simpleQuery
                           (refLibsaml fixedSigner) refUrn)
                    refCustomLoginEntity (Some failingCallback) refWorld _ _ _
                    eq_refl eq_refl eq_refl Hne) failingCallback);
      reflexivity.
Defined.

(** X7 at work: a logout request whose configured format is unknown. *)
Lemma nameIDFormat_falls_back_witness :
  namespace_format refUrn (logoutNameIDFormat (entitySetting (init (refLogoutEntity true))))
  = None
  /\ exists tvalue,
      substitutions
        (traceOf
           (logoutRequestRedirectURL storedDeflate simpleQuery
              (refLibsaml fixedSigner) refUrn refUser (refLogoutEntity true)
              None None refWorld))
      = [tvalue]
      /\ lookupTag "NameIDFormat" tvalue
         = Some (JString "urn:oasis:names:tc:SAML:1.1:nameid-format:emailAddress").
Proof.
  split; [reflexivity|].
  destruct (proj2 (nameIDFormat_falls_back storedDeflate simpleQuery
                     (refLibsaml fixedSigner) refUrn)
              refUser (refLogoutEntity true) None None refWorld _ _
              eq_refl eq_refl eq_refl)
    as (tvalue & v & Hs & Hl & _ & Hnone).
  exists tvalue. split; [exact Hs|].
  rewrite Hl, (Hnone (or_introl eq_refl)). reflexivity.
Defined.

(** X8 at work: the login request of scenario 1. *)
Lemma destination_is_the_endpoint_witness :
  exists tvalue,
    substitutions
      (traceOf
         (loginRequestRedirectURL storedDeflate simpleQuery (refLibsaml fixedSigner)
            refUrn (refLoginEntity "https://idp.example/sso" true) None refWorld))
    = [tvalue]
    /\ lookupTag "Destination" tvalue = Some (JString "https://idp.example/sso")
    /\ exists suffix, signedLoginURL = "https://idp.example/sso" ++ suffix.
Proof.
  assert (Hrun : resultOf
                   (loginRequestRedirectURL storedDeflate simpleQuery
                      (refLibsaml fixedSigner) refUrn
                      (refLoginEntity "https://idp.example/sso" true) None refWorld)
                 = Ok {| id := "_7"; context := signedLoginURL |})
    by (vm_compute; reflexivity).
  destruct (proj1 (destination_is_the_endpoint storedDeflate simpleQuery
                     (refLibsaml fixedSigner) refUrn)
              (refLoginEntity "https://idp.example/sso" true) None refWorld _ _
              eq_refl eq_refl eq_refl)
    as (tvalue & Hs & Hd & Hurl).
  exists tvalue. split; [exact Hs|]. split; [exact Hd|].
  exact (Hurl _ Hrun).
Defined.

(** X9 at work: a RelayState with a space, an [&] and an [=]. *)
Lemma relayState_round_trip_witness :
  BuildRedirectConfig.relayState
    (refOpts "https://idp.example/slo" false (Some "a b&c=d")) = Some "a b&c=d"
  /\ "a b&c=d" <> ""
  /\ resultOf
       (buildRedirectURL storedDeflate simpleQuery (refLibsaml fixedSigner)
          (refOpts "https://idp.example/slo" false (Some "a b&c=d")) refWorld)
     = Ok "https://idp.example/slo?SAMLRequest=AQQA%2B%2F88eC8%2B&RelayState=a%20b%26c%3Dd"
  /\ exists ps v,
      queryParams
        "https://idp.example/slo?SAMLRequest=AQQA%2B%2F88eC8%2B&RelayState=a%20b%26c%3Dd"
      = ps
      /\ filter (fun kv => String.eqb (fst kv) "RelayState") ps = [("RelayState", v)]
      /\ decodeURIComponent v = Some "a b&c=d".
Proof.
  assert (Hne : "a b&c=d" <> "") by discriminate.
  assert (Hrun : resultOf
                   (buildRedirectURL storedDeflate simpleQuery (refLibsaml fixedSigner)
                      (refOpts "https://idp.example/slo" false (Some "a b&c=d"))
                      refWorld)
                 = Ok "https://idp.example/slo?SAMLRequest=AQQA%2B%2F88eC8%2B&RelayState=a%20b%26c%3Dd")
    by (vm_compute; reflexivity).
  split; [reflexivity|]. split; [exact Hne|]. split; [exact Hrun|].
  destruct (relayState_round_trip storedDeflate simpleQuery (refLibsaml fixedSigner)
              (refOpts "https://idp.example/slo" false (Some "a b&c=d")) refWorld
              _ "a b&c=d" eq_refl Hne Hrun)
    as (ps & v & Hq & Hf & Hd).
  exists ps, v. split; [exact Hq|]. split; [exact Hf | exact Hd].
Defined.

(** X10 at work: the same call adds two parameters, not four. *)
Lemma added_parameter_names_witness :
  resultOf
    (buildRedirectURL storedDeflate simpleQuery (refLibsaml fixedSigner)
       (refOpts "https://idp.example/slo" false (Some "a b&c=d")) refWorld)
  = Ok "https://idp.example/slo?SAMLRequest=AQQA%2B%2F88eC8%2B&RelayState=a%20b%26c%3Dd"
  /\ keys
       (queryParams
          "https://idp.example/slo?SAMLRequest=AQQA%2B%2F88eC8%2B&RelayState=a%20b%26c%3Dd")
     = ["SAMLRequest"; "RelayState"].
Proof.
  assert (Hrun : resultOf
                   (buildRedirectURL storedDeflate simpleQuery (refLibsaml fixedSigner)
                      (refOpts "https://idp.example/slo" false (Some "a b&c=d"))
                      refWorld)
                 = Ok "https://idp.example/slo?SAMLRequest=AQQA%2B%2F88eC8%2B&RelayState=a%20b%26c%3Dd")
    by (vm_compute; reflexivity).
  split; [exact Hrun|].
  destruct (added_parameter_names storedDeflate simpleQuery (refLibsaml fixedSigner)
              _ _ _ Hrun)
    as (ps & Hq & Hk).
  rewrite Hq. exact Hk.
Defined.

(** X11 at work: a logout request is issued by the initiator. *)
Lemma issuer_is_the_sender_witness :
  exists tvalue,
    substitutions
      (traceOf
         (logoutRequestRedirectURL storedDeflate simpleQuery (refLibsaml fixedSigner)
            refUrn refUser (refLogoutEntity false) None None refWorld))
    = [tvalue]
    /\ lookupTag "Issuer" tvalue = Some (JString "https://sp.example/metadata").
Proof.
  destruct (proj1 (proj2 (issuer_is_the_sender storedDeflate simpleQuery
                            (refLibsaml fixedSigner) refUrn))
              refUser (refLogoutEntity false) None None refWorld _ _
              eq_refl eq_refl eq_refl)
    as (tvalue & Hs & Hi & _).
  exists tvalue. split; [exact Hs | exact Hi].
Defined.

(** X12 at work: a user without session index. *)
Lemma logoutRequest_subject_witness :
  entityMeta (init (refLogoutEntity false))
  = Some (refMeta "https://sp.example/slo" false)
  /\ entityMeta (target (refLogoutEntity false))
     = Some (refMeta "https://idp.example/slo" false)
  /\ truthy (logoutRequestTemplate (entitySetting (init (refLogoutEntity false))))
     = false
  /\ exists tvalue,
      substitutions
        (traceOf
           (logoutRequestRedirectURL storedDeflate simpleQuery
              (refLibsaml fixedSigner) refUrn
              {| logoutNameID := JString "user@sp.example";
                 sessionIndex := JUndefined |}
              (refLogoutEntity false) None None refWorld))
      = [tvalue]
      /\ lookupTag "NameID" tvalue = Some (JString "user@sp.example")
      /\ lookupTag "SessionIndex" tvalue = Some JUndefined.
Proof.
  split; [reflexivity|]. split; [reflexivity|]. split; [reflexivity|].
  exact (logoutRequest_subject storedDeflate simpleQuery (refLibsaml fixedSigner)
           refUrn
           {| logoutNameID := JString "user@sp.example"; sessionIndex := JUndefined |}
           (refLogoutEntity false) None None refWorld _ _ eq_refl eq_refl eq_refl).
Defined.

(** X13 at work: a logout response without request info. *)
Lemma logoutResponse_reports_success_witness :
  entityMeta (init (refLogoutEntity false))
  = Some (refMeta "https://sp.example/slo" false)
  /\ entityMeta (target (refLogoutEntity false))
     = Some (refMeta "https://idp.example/slo" false)
  /\ truthy (logoutResponseTemplate (entitySetting (init (refLogoutEntity false))))
     = false
  /\ exists tvalue,
      substitutions
        (traceOf
           (logoutResponseRedirectURL storedDeflate simpleQuery
              (refLibsaml fixedSigner) refUrn None (refLogoutEntity false) None None
              refWorld))
      = [tvalue]
      /\ lookupTag "StatusCode" tvalue
         = Some (JString "urn:oasis:names:tc:SAML:2.0:status:Success")
      /\ map fst tvalue
         = ["ID"; "Destination"; "Issuer"; "EntityID"; "IssueInstant"; "StatusCode"].
Proof.
  split; [reflexivity|]. split; [reflexivity|]. split; [reflexivity|].
  exact (logoutResponse_reports_success storedDeflate simpleQuery
           (refLibsaml fixedSigner) refUrn None (refLogoutEntity false) None None
           refWorld _ _ eq_refl eq_refl eq_refl).
Defined.

(** X14 at work: a pair appended to a URL that has a parameter. *)
Lemma pvPair_read_back_witness :
  allChars plainChar "SigAlg" = true
  /\ allChars notSeparator "rsa-sha256" = true
  /\ queryParams ("https://idp.example/slo?a=b" ++ pvPair "SigAlg" "rsa-sha256" None)
     = [("a", "b"); ("SigAlg", "rsa-sha256")].
Proof.
  split; [reflexivity|]. split; [reflexivity|].
  exact (proj1 (pvPair_read_back "https://idp.example/slo?a=b" "SigAlg" "rsa-sha256"
                  None eq_refl eq_refl)).
Defined.



(** X17 at work: the signed call of C1. *)
Lemma signing_input_rebuilt_from_url_witness :
  BuildRedirectConfig.isSigned
    (refOpts "https://idp.example/slo?a=b" true (Some "deeplink123")) = true
  /\ resultOf
       (buildRedirectURL storedDeflate simpleQuery (refLibsaml fixedSigner)
          (refOpts "https://idp.example/slo?a=b" true (Some "deeplink123"))
          refWorld)
     = Ok "https://idp.example/slo?a=b&SAMLRequest=AQQA%2B%2F88eC8%2B&SigAlg=http%3A%2F%2Fwww.w3.org%2F2001%2F04%2Fxmldsig-more%23rsa-sha256&RelayState=deeplink123&Signature=c2ln%2B%2F8%3D"
  /\ exists octets ps signature,
      queryParams
        "https://idp.example/slo?a=b&SAMLRequest=AQQA%2B%2F88eC8%2B&SigAlg=http%3A%2F%2Fwww.w3.org%2F2001%2F04%2Fxmldsig-more%23rsa-sha256&RelayState=deeplink123&Signature=c2ln%2B%2F8%3D"
      = (("a", "b") :: ps ++ [("Signature", signature)])%list
      /\ renderQuery ps = octets
      /\ signingInputs
           (traceOf
              (buildRedirectURL storedDeflate simpleQuery (refLibsaml fixedSigner)
                 (refOpts "https://idp.example/slo?a=b" true (Some "deeplink123"))
                 refWorld))
         = [octets].
Proof.
  assert (Hrun : resultOf
                   (buildRedirectURL storedDeflate simpleQuery (refLibsaml fixedSigner)
                      (refOpts "https://idp.example/slo?a=b" true (Some "deeplink123"))
                      refWorld)
                 = Ok "https://idp.example/slo?a=b&SAMLRequest=AQQA%2B%2F88eC8%2B&SigAlg=http%3A%2F%2Fwww.w3.org%2F2001%2F04%2Fxmldsig-more%23rsa-sha256&RelayState=deeplink123&Signature=c2ln%2B%2F8%3D")
    by (vm_compute; reflexivity).
  split; [reflexivity|]. split; [exact Hrun|].
  destruct (signing_input_rebuilt_from_url storedDeflate simpleQuery
              (refLibsaml fixedSigner)
              (refOpts "https://idp.example/slo?a=b" true (Some "deeplink123"))
              refWorld _ eq_refl Hrun)
    as (octets & ps & signature & Hs & Hq & Hr & _).
  exists octets, ps, signature. split; [exact Hq|]. split; [exact Hr | exact Hs].
Defined.
